(** * Meal planner: macro calculator, prompt builder and submit pipeline

    A shallow embedding of [app.py].  The calculator [calculate_macros] is
    written once over an abstract Python number type (class [PyNum]) and is
    then run in two models of Python's [float]:

    - [exact]: rationals [Q], arithmetic without rounding;
    - [binary64]: IEEE 754 double precision as specified by [SpecFloat]
      (53-bit mantissa, round to nearest even), which is what CPython
      computes with.

    Exceptions are values of an error monad; the Streamlit calls of [main]
    are events appended to a log; the chat client and the page renderer are
    parameters.  Claims about the calculator are proved for every model that
    satisfies [PyNumLaws] where they are structural, and in [binary64] where
    they depend on comparison and rounding; the percentage sum is settled in
    [exact], where rounding tolerance is equality. *)

From Stdlib Require Import ZArith QArith String Ascii List Bool Lia Lqa.
From Stdlib Require Import Floats.SpecFloat.
From Stdlib Require Import DecimalString.
From stdpp Require Import gmap strings.

Local Open Scope string_scope.
Local Open Scope Z_scope.

(** ** Exceptions *)

(** The exceptions the modelled code can raise.  [ExternalError] stands for
    any [Exception] raised inside the chat client (network, authentication,
    quota); its argument is [str(e)]. *)
Inductive pyexc : Type :=
| KeyError (key : string)
| ZeroDivisionError
| OverflowError
| IndexError
| ExternalError (msg : string).

Inductive result (A : Type) : Type :=
| Ok (a : A)
| Raise (e : pyexc).
Arguments Ok {A} a.
Arguments Raise {A} e.

Definition bind {A B : Type} (c : result A) (k : A -> result B) : result B :=
  match c with
  | Ok a => k a
  | Raise e => Raise e
  end.

Declare Scope py_monad_scope.
Delimit Scope py_monad_scope with pym.
Notation "x <- c ;; k" := (bind c (fun x => k))
  (at level 100, c at next level, right associativity) : py_monad_scope.

(** [repr] of a string key, as [str(KeyError(key))] prints it (keys without
    quotes or escapes). *)
Definition repr_str (s : string) : string := "'" ++ s ++ "'".

(** [str(e)] for the exceptions above. *)
Definition exc_str (e : pyexc) : string :=
  match e with
  | KeyError k => repr_str k
  | ZeroDivisionError => "float division by zero"
  | OverflowError => "int too large to convert to float"
  | IndexError => "list index out of range"
  | ExternalError m => m
  end.

(** ** Python numbers *)

(** The operations [calculate_macros] and the prompt builder use on numbers.
    [of_int] promotes an [int] operand, [int_fits] tells whether CPython
    promotes it without [OverflowError], [of_decimal q] is the float a
    decimal literal denoting [q] parses to, [pytruediv_raw] is the quotient
    once the divisor is known to be non-zero, and [fmt_fixed k] is the
    format specification [.kf]. *)
Class PyNum (F : Type) : Type := {
  of_int : Z -> F;
  int_fits : Z -> bool;
  of_decimal : Q -> F;
  pyadd : F -> F -> F;
  pysub : F -> F -> F;
  pymul : F -> F -> F;
  pytruediv_raw : F -> F -> F;
  pygt : F -> F -> bool;
  is_zero : F -> bool;
  fmt_fixed : nat -> F -> string
}.

Declare Scope py_scope.
Delimit Scope py_scope with py.
Infix "+" := pyadd : py_scope.
Infix "-" := pysub : py_scope.
Infix "*" := pymul : py_scope.
Infix ">?" := pygt : py_scope.

Section PyOps.
Context {F : Type} `{PyNum F}.

(** [float - int]: the int operand is converted first, which fails for
    ints beyond the float range. *)
Definition promote (z : Z) : result F :=
  if int_fits z then Ok (of_int z) else Raise OverflowError.

(** [x / y]: division by zero raises. *)
Definition pytruediv (x y : F) : result F :=
  if is_zero y then Raise ZeroDivisionError else Ok (pytruediv_raw x y).

(** The builtin [max(a, b)] of two arguments: the first is kept unless the
    second compares greater. *)
Definition pymax (a b : F) : F :=
  if (b >? a)%py then b else a.
End PyOps.

Infix "/" := pytruediv : py_scope.

(** ** Fixed-point formatting *)

(** Nearest integer to [n / d] for [0 <= n], ties to the even neighbour. *)
Definition round_half_even (n : Z) (d : positive) : Z :=
  let q := n / Z.pos d in
  let r := n mod Z.pos d in
  match 2 * r ?= Z.pos d with
  | Lt => q
  | Gt => q + 1
  | Eq => if Z.even q then q else q + 1
  end.

Definition digit_char (d : Z) : ascii := ascii_of_nat (48 + Z.to_nat d).

(** The decimal numeral of a natural number, without leading zeros. *)
Definition dec_string (z : Z) : string :=
  NilZero.string_of_uint (N.to_uint (Z.to_N z)).

(** The last [k] decimal digits of [f], zero padded. *)
Fixpoint frac_digits (k : nat) (f : Z) : string :=
  match k with
  | O => EmptyString
  | S k' => frac_digits k' (f / 10) ++ String (digit_char (f mod 10)) EmptyString
  end.

(** [format(q, '.kf')] for an exact value [q]: sign, integer part and, when
    [k > 0], a point followed by exactly [k] digits. *)
Definition fmt_fixed_Q (k : nat) (q : Q) : string :=
  let scale := 10 ^ Z.of_nat k in
  let n := round_half_even (Z.abs (Qnum q) * scale) (Qden q) in
  (if Qnum q <? 0 then "-" else "")
  ++ dec_string (n / scale)
  ++ match k with
     | O => EmptyString
     | S _ => "." ++ frac_digits k (n mod scale)
     end.

(** ** Model 1: exact rational arithmetic *)

#[export] Instance exact : PyNum Q := {|
  of_int := inject_Z;
  int_fits := fun _ => true;
  of_decimal := fun q => q;
  pyadd := Qplus;
  pysub := Qminus;
  pymul := Qmult;
  pytruediv_raw := Qdiv;
  pygt := fun x y => negb (Qle_bool x y);
  is_zero := fun x => Qeq_bool x 0;
  fmt_fixed := fmt_fixed_Q
|}.

(** ** Model 2: IEEE 754 binary64 *)

Definition prec : Z := 53.
Definition emax : Z := 1024.

(** [float(z)]: the double nearest to the integer [z]. *)
Definition f64_of_Z (z : Z) : spec_float := binary_normalize prec emax z 0 false.

(** The double nearest to [n / d], for [n] and [d] below [2^53] (both are
    then doubles and the division rounds once). *)
Definition f64_of_Q (q : Q) : spec_float :=
  SFdiv prec emax (f64_of_Z (Qnum q)) (f64_of_Z (Z.pos (Qden q))).

(** The rational a finite double denotes ([0] for the others). *)
Definition f64_to_Q (x : spec_float) : Q :=
  match x with
  | S754_finite s m e =>
      let v := match e with
               | Z.neg p => Z.pos m # (2 ^ p)
               | _ => inject_Z (Z.pos m * 2 ^ e)
               end in
      if s then Qopp v else v
  | _ => 0%Q
  end.

Definition f64_is_zero (x : spec_float) : bool :=
  match x with
  | S754_zero _ => true
  | _ => false
  end.

Definition f64_fits (z : Z) : bool :=
  match f64_of_Z z with
  | S754_infinity _ => false
  | _ => true
  end.

Definition fmt_fixed_f64 (k : nat) (x : spec_float) : string :=
  match x with
  | S754_nan => "nan"
  | S754_infinity false => "inf"
  | S754_infinity true => "-inf"
  | S754_zero s => (if s then "-" else "") ++ fmt_fixed_Q k 0
  | S754_finite _ _ _ => fmt_fixed_Q k (f64_to_Q x)
  end.

#[export] Instance binary64 : PyNum spec_float := {|
  of_int := f64_of_Z;
  int_fits := f64_fits;
  of_decimal := f64_of_Q;
  pyadd := SFadd prec emax;
  pysub := SFsub prec emax;
  pymul := SFmul prec emax;
  pytruediv_raw := SFdiv prec emax;
  pygt := fun x y => SFltb y x;
  is_zero := f64_is_zero;
  fmt_fixed := fmt_fixed_f64
|}.

(** ** Strings *)

(** [str.upper] on ASCII letters; other bytes (the UTF-8 bytes of non-ASCII
    characters, which [str.upper] never maps to an ASCII letter [M]) are
    kept. *)
Definition upper_ascii (c : ascii) : ascii :=
  let n := nat_of_ascii c in
  if ((97 <=? n) && (n <=? 122))%nat then ascii_of_nat (n - 32) else c.

Fixpoint upper (s : string) : string :=
  match s with
  | EmptyString => EmptyString
  | String c s' => String (upper_ascii c) (upper s')
  end.

(** [x or default] on strings: the empty string is the only falsy one. *)
Definition str_or (x default : string) : string :=
  match x with
  | EmptyString => default
  | _ => x
  end.

(** ** Macro calculator *)

Record MacroResult (F : Type) : Type := {
  rmr : F;
  tdee : F;
  target_kcal : F;
  protein_g : F;
  fat_g : F;
  carbs_g : F;
  protein_pct : F;
  fat_pct : F;
  carbs_pct : F
}.
Arguments rmr {F} _.
Arguments tdee {F} _.
Arguments target_kcal {F} _.
Arguments protein_g {F} _.
Arguments fat_g {F} _.
Arguments carbs_g {F} _.
Arguments protein_pct {F} _.
Arguments fat_pct {F} _.
Arguments carbs_pct {F} _.

Definition deficit_map : gmap string Z :=
  {[ "Gentle" := 250; "Moderate" := 500; "Aggressive" := 750 ]}.

(** [d[k]] on a dict. *)
Definition dict_getitem (d : gmap string Z) (k : string) : result Z :=
  match d !! k with
  | Some v => Ok v
  | None => Raise (KeyError k)
  end.

Section Calculator.
Context {F : Type} `{PyNum F}.
Local Open Scope py_monad_scope.

(** Lines 104-110: each macro's share of the target, or all zero. *)
Definition macro_percentages (target_kcal kcal_protein kcal_fat kcal_carbs : F)
  : result (F * F * F) :=
  if (target_kcal >? of_int 0)%py then
    p <- (kcal_protein / target_kcal)%py ;;
    f <- (kcal_fat / target_kcal)%py ;;
    c <- (kcal_carbs / target_kcal)%py ;;
    Ok ((p * of_int 100)%py, (f * of_int 100)%py, (c * of_int 100)%py)
  else Ok (of_int 0, of_int 0, of_int 0).

Definition calculate_macros
    (sex : string) (age : Z) (height_cm weight_current_kg weight_goal_kg : F)
    (weight_source : string) (activity_factor : F) (intensity : string)
    (protein_g_per_kg fat_g_per_kg : F) : result (MacroResult F) :=
  rmr <- (if String.eqb (upper sex) "M" then
            age5 <- promote (5 * age) ;;
            Ok (of_int 10 * weight_current_kg + of_decimal 6.25 * height_cm
                - age5 + of_int 5)%py
          else
            age5 <- promote (5 * age) ;;
            Ok (of_int 10 * weight_current_kg + of_decimal 6.25 * height_cm
                - age5 - of_int 161)%py) ;;
  let tdee := (rmr * activity_factor)%py in
  deficit <- dict_getitem deficit_map intensity ;;
  let target_kcal := pymax (tdee - of_int deficit)%py (of_int 1200) in
  let weight_for_macros :=
    if String.eqb weight_source "Current" then weight_current_kg
    else weight_goal_kg in
  let protein_g := (weight_for_macros * protein_g_per_kg)%py in
  let fat_g := (weight_for_macros * fat_g_per_kg)%py in
  let kcal_protein := (protein_g * of_int 4)%py in
  let kcal_fat := (fat_g * of_int 9)%py in
  let kcal_carbs :=
    pymax (target_kcal - (kcal_protein + kcal_fat))%py (of_int 0) in
  carbs_g <- (if (kcal_carbs >? of_int 0)%py then (kcal_carbs / of_int 4)%py
              else Ok (of_int 0)) ;;
  pcts <- macro_percentages target_kcal kcal_protein kcal_fat kcal_carbs ;;
  let '(protein_pct, fat_pct, carbs_pct) := pcts in
  Ok {| rmr := rmr; tdee := tdee; target_kcal := target_kcal;
        protein_g := protein_g; fat_g := fat_g; carbs_g := carbs_g;
        protein_pct := protein_pct; fat_pct := fat_pct;
        carbs_pct := carbs_pct |}.
End Calculator.

(** ** Prompt builder *)

Definition lang_note_spanish : string :=
  "IMPORTANT: Responde TODO en español, incluyendo encabezados, etiquetas y descripciones. "
  ++ "Usa un estilo claro y fácil de entender para pacientes.".

Definition lang_note_english : string :=
  "IMPORTANT: Respond entirely in English. "
  ++ "Use a clear, patient-friendly style.".

(** Lines 135-145: the language directive. *)
Definition lang_note (language : string) : string :=
  if String.eqb language "Spanish" then lang_note_spanish
  else lang_note_english.

Definition prompt_role : string := "

You are a registered dietitian and meal-planning assistant.

Create a 7-day meal plan (breakfast, lunch, dinner, and 1–2 snacks per day)
for a single adult based on the following macro targets:

- Daily calories: ".

Definition prompt_tail : string := "
- Use foods that are realistically available at that store.
- Keep recipes simple and realistic for a busy person.
- Reuse ingredients across meals to save cost and reduce waste.
- Keep daily totals reasonably close to the macro targets.
- Assume typical adult portion sizes; you may approximate macros.

OUTPUT FORMAT (plain text, no markdown tables):
Day 1
- Breakfast: ...
  Approx: X kcal, P: Y g, C: Z g, F: W g
- Snack: ...
- Lunch: ...
- Snack: ...
- Dinner: ...

Repeat for Days 1–7.

At the end, include:
1) A rough estimated daily calorie and macro summary per day.
2) A rough estimated daily and weekly cost.
3) One combined grocery list grouped by category:
   - Produce
   - Protein
   - Dairy
   - Grains / Starches
   - Pantry
   - Frozen
   - Other.
".

Section Prompt.
Context {F : Type} `{PyNum F}.

(** Lines 160-164 of the template: the constraints the user typed. *)
Definition prompt_constraints
    (allergies dislikes preferred_store : string) (weekly_budget : F) : string :=
  "CONSTRAINTS:
- Allergies / must AVOID: " ++ str_or allergies "none specified" ++ "
- Foods to avoid / dislikes: " ++ str_or dislikes "none specified" ++ "
- Weekly grocery budget: $" ++ fmt_fixed 2 weekly_budget ++ " for all 7 days
- Preferred grocery store or market: "
  ++ str_or preferred_store "generic US supermarket".

Definition build_mealplan_prompt
    (macros : MacroResult F) (allergies dislikes preferred_store : string)
    (weekly_budget : F) (language : string) : string :=
  "
" ++ lang_note language ++ prompt_role
  ++ fmt_fixed 0 (target_kcal macros) ++ " kcal
- Protein: " ++ fmt_fixed 0 (protein_g macros) ++ " g/day
- Carbohydrates: " ++ fmt_fixed 0 (carbs_g macros) ++ " g/day
- Fats: " ++ fmt_fixed 0 (fat_g macros) ++ " g/day

" ++ prompt_constraints allergies dislikes preferred_store weekly_budget
  ++ prompt_tail.
End Prompt.

(** ** Plan request, document and submit pipeline *)

Definition MODEL_NAME : string := "gpt-4.1-mini".

Definition system_content : string :=
  "You are a precise, practical meal-planning assistant for evidence-based weight management.".

(** What Streamlit is asked to show, in call order. *)
Inductive ui_event : Type :=
| st_success (body : string)
| st_subheader (body : string)
| st_metric (label value : string)
| st_write (body : string)
| st_divider
| st_spinner (text : string)
| st_text_area (label value : string)
| st_download_button (label : string) (data : list Byte.byte) (file_name mime : string)
| st_error (body : string).

(** [text.split(sep)] for a one-character separator. *)
Fixpoint split_on (sep : ascii) (text : string) : list string :=
  match text with
  | EmptyString => EmptyString :: nil
  | String c rest =>
      if Ascii.eqb c sep then EmptyString :: split_on sep rest
      else match split_on sep rest with
           | nil => String c EmptyString :: nil
           | l :: ls => String c l :: ls
           end
  end.

Definition newline : ascii := ascii_of_nat 10.

Record form_inputs (F : Type) : Type := {
  in_sex : string;
  in_age : Z;
  in_height_cm : F;
  in_weight_current_kg : F;
  in_weight_goal_kg : F;
  in_weight_source : string;
  in_activity_factor : F;
  in_intensity : string;
  in_protein_g_per_kg : F;
  in_fat_g_per_kg : F;
  in_allergies : string;
  in_dislikes : string;
  in_preferred_store : string;
  in_weekly_budget : F;
  in_language : string
}.
Arguments in_sex {F} _.
Arguments in_age {F} _.
Arguments in_height_cm {F} _.
Arguments in_weight_current_kg {F} _.
Arguments in_weight_goal_kg {F} _.
Arguments in_weight_source {F} _.
Arguments in_activity_factor {F} _.
Arguments in_intensity {F} _.
Arguments in_protein_g_per_kg {F} _.
Arguments in_fat_g_per_kg {F} _.
Arguments in_allergies {F} _.
Arguments in_dislikes {F} _.
Arguments in_preferred_store {F} _.
Arguments in_weekly_budget {F} _.
Arguments in_language {F} _.

Section Pipeline.
Context {F : Type} `{PyNum F}.

(** The hosted chat-completion endpoint: model name and (role, content)
    messages in, the message contents of the returned choices out, or the
    exception the client raised. *)
Variable chat_completions_create :
  string -> list (string * string) -> result (list string).

(** The page renderer behind [canvas] and [textobject]: title and body
    lines in, the encoded document out. *)
Variable render_page : string -> list string -> result (list Byte.byte).

Local Open Scope py_monad_scope.

Definition generate_meal_plan_with_ai
    (macros : MacroResult F) (allergies dislikes preferred_store : string)
    (weekly_budget : F) (language : string) : result string :=
  let prompt := build_mealplan_prompt macros allergies dislikes
                  preferred_store weekly_budget language in
  choices <- chat_completions_create MODEL_NAME
               (("system", system_content) :: ("user", prompt) :: nil) ;;
  match choices with
  | nil => Raise IndexError
  | content :: _ => Ok content
  end.

Definition create_pdf_from_text (text title : string) : result (list Byte.byte) :=
  render_page title (split_on newline text).

(** Lines 355-372: what is shown once the macros are computed and before
    the plan is requested. *)
Definition show_macros (macros : MacroResult F) : list ui_event :=
  st_success "Calculated macros successfully."
  :: st_subheader "Calculated Energy and Macros"
  :: st_metric "Resting Metabolic Rate (RMR)" (fmt_fixed 0 (rmr macros) ++ " kcal/day")
  :: st_metric "TDEE (maintenance)" (fmt_fixed 0 (tdee macros) ++ " kcal/day")
  :: st_metric "Weight-loss target" (fmt_fixed 0 (target_kcal macros) ++ " kcal/day")
  :: st_write "Daily macros"
  :: st_write ("- Protein: " ++ fmt_fixed 0 (protein_g macros) ++ " g ("
               ++ fmt_fixed 1 (protein_pct macros) ++ "% kcal)")
  :: st_write ("- Fat: " ++ fmt_fixed 0 (fat_g macros) ++ " g ("
               ++ fmt_fixed 1 (fat_pct macros) ++ "% kcal)")
  :: st_write ("- Carbs: " ++ fmt_fixed 0 (carbs_g macros) ++ " g ("
               ++ fmt_fixed 1 (carbs_pct macros) ++ "% kcal)")
  :: st_divider
  :: st_subheader "AI-Generated 7-Day Meal Plan"
  :: st_spinner "Calling AI to generate your meal plan..."
  :: nil.

(** Lines 373-397: the [try] block; every exception raised inside it is
    turned into one [st.error] call. *)
Definition show_plan (macros : MacroResult F) (inp : form_inputs F)
  : list ui_event :=
  match generate_meal_plan_with_ai macros (in_allergies inp) (in_dislikes inp)
          (in_preferred_store inp) (in_weekly_budget inp) (in_language inp) with
  | Raise e => st_error ("Error generating meal plan: " ++ exc_str e) :: nil
  | Ok plan_text =>
      st_text_area "Meal plan" plan_text
      :: match create_pdf_from_text plan_text
                 (if String.eqb (in_language inp) "Spanish"
                  then "Meal Plan (Spanish)" else "Meal Plan (English)") with
         | Raise e => st_error ("Error generating meal plan: " ++ exc_str e) :: nil
         | Ok pdf_bytes =>
             st_download_button "Download meal plan as PDF" pdf_bytes
               "meal_plan.pdf" "application/pdf" :: nil
         end
  end.

(** Lines 341-397: the body of [if submitted:].  An exception of
    [calculate_macros] is not caught and ends the run. *)
Definition main_submitted (inp : form_inputs F) : result (list ui_event) :=
  macros <- calculate_macros (in_sex inp) (in_age inp) (in_height_cm inp)
              (in_weight_current_kg inp) (in_weight_goal_kg inp)
              (in_weight_source inp) (in_activity_factor inp)
              (in_intensity inp) (in_protein_g_per_kg inp)
              (in_fat_g_per_kg inp) ;;
  Ok (show_macros macros ++ show_plan macros inp)%list.
End Pipeline.

(** The title [main] passes to [create_pdf_from_text] (line 386). *)
Definition pdf_title (language : string) : string :=
  if String.eqb language "Spanish" then "Meal Plan (Spanish)"
  else "Meal Plan (English)".

(** The [messages] argument of the chat request (lines 215-221). *)
Definition plan_messages {F : Type} `{PyNum F}
    (macros : MacroResult F) (inp : form_inputs F) : list (string * string) :=
  ("system", system_content)
  :: ("user", build_mealplan_prompt macros (in_allergies inp) (in_dislikes inp)
                (in_preferred_store inp) (in_weekly_budget inp)
                (in_language inp))
  :: nil.

(** ** Start-up configuration *)

(** How the module-level code of lines 22-34 ends: the key check is passed
    and the client is constructed from [api_key], or line 32 raises
    [RuntimeError]. *)
Inductive startup : Type :=
| Started (api_key : string)
| RuntimeError (msg : string).

Definition missing_key_message : string :=
  "OPENAI_API_KEY not found in Streamlit secrets or environment variables".

(** Lines 22-34.  [secret] is the outcome of [st.secrets["OPENAI_API_KEY"]]
    (a value or an exception), [env] that of [os.getenv("OPENAI_API_KEY")]
    once [.env] is loaded.  The environment is read only in the [except]
    branch; [not api_key] holds for [None] and for the empty string. *)
Definition resolve_api_key (secret : result string) (env : option string)
  : startup :=
  let api_key := match secret with
                 | Ok k => Some k
                 | Raise _ => env
                 end in
  match api_key with
  | None => RuntimeError missing_key_message
  | Some k => if String.eqb k EmptyString then RuntimeError missing_key_message
              else Started k
  end.

(** ** Lines of a text *)

(** [sep.join(parts)]. *)
Fixpoint join_with (sep : string) (parts : list string) : string :=
  match parts with
  | nil => EmptyString
  | p :: nil => p
  | p :: ps => p ++ sep ++ join_with sep ps
  end.

(** [text.count(c)] for one character. *)
Fixpoint count_char (c : ascii) (text : string) : nat :=
  match text with
  | EmptyString => O
  | String c' rest => (if Ascii.eqb c' c then 1 else 0) + count_char c rest
  end.

(** ** Input domains *)

(** The three values of the intensity select box. *)
Definition intensity_enum (intensity : string) : Prop :=
  intensity = "Gentle" \/ intensity = "Moderate" \/ intensity = "Aggressive".

(** What the calculator relies on, in any model of [float]: a number that
    compares greater than zero is not zero, and the literal [4] is not
    zero. *)
Class PyNumLaws (F : Type) `{PyNum F} : Prop := {
  gt_zero_not_zero : forall x : F, (x >? of_int 0)%py = true -> is_zero x = false;
  four_not_zero : is_zero (of_int 4 : F) = false
}.

(** ** Predicates on doubles *)

Definition f64_not_nan (x : spec_float) : bool :=
  match x with
  | S754_nan => false
  | _ => true
  end.

(** Not NaN and sign bit [s]. *)
Definition f64_signed (s : bool) (x : spec_float) : bool :=
  match x with
  | S754_nan => false
  | S754_zero s' | S754_infinity s' | S754_finite s' _ _ => Bool.eqb s' s
  end.

Definition f64_finite (x : spec_float) : bool :=
  match x with
  | S754_zero _ | S754_finite _ _ _ => true
  | _ => false
  end.

Definition f64_pos_finite (x : spec_float) : bool :=
  match x with
  | S754_finite false _ _ => true
  | _ => false
  end.



(** A double within [lo, hi], the bounds being decimal literals. *)
Definition f64_between (lo hi : Q) (x : spec_float) : bool :=
  valid_binary prec emax x && SFleb (f64_of_Q lo) x && SFleb x (f64_of_Q hi).

(** The ranges the form enforces, for doubles. *)
Definition valid_inputs_f64 (age : Z)
    (height_cm weight_current_kg weight_goal_kg activity_factor
     protein_g_per_kg fat_g_per_kg : spec_float) : bool :=
  (12 <=? age) && (age <=? 100)
  && f64_between 120 230 height_cm
  && f64_between 30 300 weight_current_kg
  && f64_between 30 300 weight_goal_kg
  && f64_between 1.1 2.5 activity_factor
  && f64_between 0.8 2.5 protein_g_per_kg
  && f64_between 0.3 1.5 fat_g_per_kg.

(** A finite double with the sign bit clear: [+0.0] or positive. *)
Definition f64_nonneg_finite (x : spec_float) : bool :=
  match x with
  | S754_zero false | S754_finite false _ _ => true
  | _ => false
  end.

(** ** Predicates on strings *)

(** [sub] occurs in [s]. *)
Definition contains (sub s : string) : Prop :=
  exists pre post : string, s = pre ++ sub ++ post.




(** [prompt] contains [label], the decimal digits of an integer [n] nearest
    to [q], and [unit]. *)
Definition shows_nearest (label unit : string) (q : Q) (prompt : string) : Prop :=
  exists n : Z,
    contains (label ++ dec_string n ++ unit) prompt
    /\ (inject_Z n - (1 # 2) <= q <= inject_Z n + (1 # 2))%Q.

(** ** Example data *)

(** A form as submitted with its default values. *)
Definition example_inputs : form_inputs spec_float := {|
  in_sex := "M";
  in_age := 30;
  in_height_cm := of_int 170;
  in_weight_current_kg := of_int 70;
  in_weight_goal_kg := of_int 65;
  in_weight_source := "Current";
  in_activity_factor := of_decimal 1.375;
  in_intensity := "Moderate";
  in_protein_g_per_kg := of_decimal 1.4;
  in_fat_g_per_kg := of_decimal 0.7;
  in_allergies := EmptyString;
  in_dislikes := EmptyString;
  in_preferred_store := EmptyString;
  in_weekly_budget := of_int 120;
  in_language := "English"
|}.

(** The macros [calculate_macros] returns for [example_inputs] (the
    percentages by mantissa and exponent). *)
Definition example_macros : MacroResult spec_float := {|
  rmr := of_decimal 1617.5;
  tdee := of_decimal 2224.0625;
  target_kcal := of_decimal 1724.0625;
  protein_g := of_int 98;
  fat_g := of_int 49;
  carbs_g := of_decimal 222.765625;
  protein_pct := S754_finite false 6399895065902608 (-48);
  fat_pct := S754_finite false 7199881949140434 (-48);
  carbs_pct := S754_finite false 7273860328011280 (-47)
|}.

(** A client whose request fails on the network. *)
Definition failing_client (model : string) (messages : list (string * string))
  : result (list string) :=
  Raise (ExternalError "Connection error.").

Definition blank_renderer (title : string) (lines : list string)
  : result (list Byte.byte) :=
  Ok nil.

(** A plan of two lines, and a client that answers with it. *)
Definition example_plan : string :=
  "Day 1" ++ String newline "Breakfast: oatmeal".

Definition canned_client (model : string) (messages : list (string * string))
  : result (list string) :=
  Ok (example_plan :: nil).

(** A renderer that cannot draw. *)
Definition failing_renderer (title : string) (lines : list string)
  : result (list Byte.byte) :=
  Raise (ExternalError "cannot draw").

(** [example_inputs] with an intensity the select box does not offer. *)
Definition example_inputs_extreme : form_inputs spec_float := {|
  in_sex := "M";
  in_age := 30;
  in_height_cm := of_int 170;
  in_weight_current_kg := of_int 70;
  in_weight_goal_kg := of_int 65;
  in_weight_source := "Current";
  in_activity_factor := of_decimal 1.375;
  in_intensity := "Extreme";
  in_protein_g_per_kg := of_decimal 1.4;
  in_fat_g_per_kg := of_decimal 0.7;
  in_allergies := EmptyString;
  in_dislikes := EmptyString;
  in_preferred_store := EmptyString;
  in_weekly_budget := of_int 120;
  in_language := "English"
|}.

(** Macros that differ from [example_macros] in every field the prompt does
    not read, and within rounding in those it reads. *)
Definition example_macros_nearby : MacroResult spec_float := {|
  rmr := of_int 0;
  tdee := of_int 0;
  target_kcal := of_decimal 1724.4;
  protein_g := of_decimal 98.3;
  fat_g := of_decimal 48.6;
  carbs_g := of_decimal 223.2;
  protein_pct := of_int 0;
  fat_pct := of_int 0;
  carbs_pct := of_int 0
|}.

(** * Proofs *)

(** ** The calculator returns *)

Section CalculatorFacts.
Context {F : Type} `{PyNumLaws F}.

Lemma dict_getitem_enum (intensity : string) :
  intensity_enum intensity ->
  exists d, dict_getitem deficit_map intensity = Ok d
            /\ (d = 250 \/ d = 500 \/ d = 750).
Proof.
  intros [-> | [-> | ->]]; eexists; (split; [reflexivity | lia]).
Qed.

Lemma dict_getitem_not_enum (intensity : string) :
  ~ intensity_enum intensity ->
  dict_getitem deficit_map intensity = Raise (KeyError intensity).
Proof.
  intros Hn. unfold dict_getitem, deficit_map.
  rewrite !lookup_insert_ne, lookup_singleton_ne; [reflexivity | | | ];
    intros <-; apply Hn; unfold intensity_enum; auto.
Qed.

Lemma macro_percentages_total (t kp kf kc : F) :
  exists p, macro_percentages t kp kf kc = Ok p.
Proof.
  unfold macro_percentages.
  destruct (t >? of_int 0)%py eqn:Hgt; [| eexists; reflexivity].
  unfold pytruediv. rewrite (gt_zero_not_zero _ Hgt). cbn.
  eexists; reflexivity.
Qed.

(** Under the enum and promotion preconditions the calculator returns, and
    every field of the result is the expression the source assigns. *)
Lemma calculate_macros_spec
    (sex : string) (age : Z) (height_cm weight_current_kg weight_goal_kg : F)
    (weight_source : string) (activity_factor : F) (intensity : string)
    (protein_g_per_kg fat_g_per_kg : F) (d : Z) :
  int_fits (F:=F) (5 * age) = true ->
  dict_getitem deficit_map intensity = Ok d ->
  exists r : MacroResult F,
    calculate_macros sex age height_cm weight_current_kg weight_goal_kg
      weight_source activity_factor intensity protein_g_per_kg fat_g_per_kg
    = Ok r
    /\ rmr r = (if String.eqb (upper sex) "M"
                then of_int 10 * weight_current_kg + of_decimal 6.25 * height_cm
                     - of_int (5 * age) + of_int 5
                else of_int 10 * weight_current_kg + of_decimal 6.25 * height_cm
                     - of_int (5 * age) - of_int 161)%py
    /\ tdee r = (rmr r * activity_factor)%py
    /\ target_kcal r = pymax (tdee r - of_int d)%py (of_int 1200)
    /\ protein_g r = ((if String.eqb weight_source "Current"
                       then weight_current_kg else weight_goal_kg)
                      * protein_g_per_kg)%py
    /\ fat_g r = ((if String.eqb weight_source "Current"
                   then weight_current_kg else weight_goal_kg)
                  * fat_g_per_kg)%py
    /\ (let kcal_carbs :=
          pymax (target_kcal r - (protein_g r * of_int 4 + fat_g r * of_int 9))%py
                (of_int 0) in
        carbs_g r = (if (kcal_carbs >? of_int 0)%py
                     then pytruediv_raw kcal_carbs (of_int 4) else of_int 0)
        /\ macro_percentages (target_kcal r) (protein_g r * of_int 4)%py
             (fat_g r * of_int 9)%py kcal_carbs
           = Ok (protein_pct r, fat_pct r, carbs_pct r)).
Proof.
  intros Hfit Hd. unfold calculate_macros, promote. rewrite Hfit, Hd.
  set (rmr0 := (if String.eqb (upper sex) "M"
                then of_int 10 * weight_current_kg + of_decimal 6.25 * height_cm
                     - of_int (5 * age) + of_int 5
                else of_int 10 * weight_current_kg + of_decimal 6.25 * height_cm
                     - of_int (5 * age) - of_int 161)%py).
  assert (Hrmr : (if String.eqb (upper sex) "M"
                  then bind (Ok (of_int (5 * age)))
                         (fun age5 => Ok (of_int 10 * weight_current_kg
                            + of_decimal 6.25 * height_cm - age5 + of_int 5)%py)
                  else bind (Ok (of_int (5 * age)))
                         (fun age5 => Ok (of_int 10 * weight_current_kg
                            + of_decimal 6.25 * height_cm - age5 - of_int 161)%py))
                 = Ok rmr0).
  { unfold rmr0. destruct (String.eqb (upper sex) "M"); reflexivity. }
  rewrite Hrmr. cbn [bind].
  set (tgt := pymax (rmr0 * activity_factor - of_int d)%py (of_int 1200)).
  set (wfm := if String.eqb weight_source "Current"
              then weight_current_kg else weight_goal_kg).
  set (kc := pymax (tgt - (wfm * protein_g_per_kg * of_int 4
                           + wfm * fat_g_per_kg * of_int 9))%py (of_int 0)).
  destruct (macro_percentages_total tgt (wfm * protein_g_per_kg * of_int 4)%py
              (wfm * fat_g_per_kg * of_int 9)%py kc) as [[[p f] c] Hp].
  rewrite Hp.
  destruct (kc >? of_int 0)%py eqn:Hkc; unfold pytruediv;
    rewrite ?four_not_zero; cbn [bind];
    (eexists; split; [reflexivity |]); cbn; fold tgt; fold wfm; fold kc;
    rewrite ?Hkc; repeat split; try reflexivity; exact Hp.
Qed.

End CalculatorFacts.

(** ** Both models satisfy the laws *)

#[export] Instance exact_laws : PyNumLaws Q.
Proof.
  split.
  - intros x. cbn. unfold Qle_bool, Qeq_bool. cbn.
    rewrite negb_true_iff, Z.leb_gt, Z.eqb_neq. lia.
  - reflexivity.
Qed.

#[export] Instance binary64_laws : PyNumLaws spec_float.
Proof.
  split.
  - intros x. cbn. destruct x as [s | s | | s m e]; cbn; try reflexivity.
    discriminate.
  - reflexivity.
Qed.

(** ** Facts about the exact model *)

Section ExactFacts.
Local Open Scope Q_scope.







End ExactFacts.

(** ** Binary64: signs and NaN *)

Section Binary64Signs.

Lemma shr_1_nonneg (mrs : shr_record) :
  0 <= shr_m mrs -> 0 <= shr_m (shr_1 mrs).
Proof.
  destruct mrs as [m r s]. cbn.
  destruct m as [| [p | p |] | p]; cbn; lia.
Qed.

Lemma iter_pos_shr_1_nonneg (p : positive) (mrs : shr_record) :
  0 <= shr_m mrs -> 0 <= shr_m (SpecFloat.iter_pos shr_1 p mrs).
Proof.
  revert mrs. induction p as [p IH | p IH |]; intros mrs Hm; cbn.
  - apply IH, IH, shr_1_nonneg, Hm.
  - apply IH, IH, Hm.
  - apply shr_1_nonneg, Hm.
Qed.

Lemma shr_fexp_nonneg (m e : Z) (l : location) :
  0 <= m -> 0 <= shr_m (fst (shr_fexp prec emax m e l)).
Proof.
  intros Hm. unfold shr_fexp, shr.
  assert (H0 : 0 <= shr_m (shr_record_of_loc m l)).
  { destruct l as [| []]; exact Hm. }
  destruct (fexp prec emax (Zdigits2 m + e) - e); cbn [fst]; auto.
  apply iter_pos_shr_1_nonneg, H0.
Qed.

Lemma round_nearest_even_nonneg (m : Z) (l : location) :
  0 <= m -> 0 <= round_nearest_even m l.
Proof.
  intros Hm. destruct l as [| []]; cbn; try destruct (Z.even m); lia.
Qed.

(** Rounding a non-negative mantissa keeps the sign and never yields NaN. *)
Lemma binary_round_aux_signed (s : bool) (m e : Z) (l : location) :
  0 <= m -> f64_signed s (binary_round_aux prec emax s m e l) = true.
Proof.
  intros Hm. unfold binary_round_aux.
  pose proof (shr_fexp_nonneg m e l Hm) as H1.
  destruct (shr_fexp prec emax m e l) as [mrs' e'] eqn:E1. cbn [fst] in H1.
  pose proof (shr_fexp_nonneg
                (round_nearest_even (shr_m mrs') (loc_of_shr_record mrs'))
                e' loc_Exact
                (round_nearest_even_nonneg _ _ H1)) as H2.
  destruct (shr_fexp prec emax _ e' loc_Exact) as [mrs'' e''] eqn:E2.
  cbn [fst] in H2.
  destruct (shr_m mrs'') as [| p | p]; [| | lia].
  - cbn. apply eqb_reflx.
  - destruct (e'' <=? emax - prec); cbn; apply eqb_reflx.
Qed.

Lemma binary_round_signed (s : bool) (m : positive) (e : Z) :
  f64_signed s (binary_round prec emax s m e) = true.
Proof.
  unfold binary_round.
  destruct (shl_align m e _) as [mz ez].
  apply binary_round_aux_signed. lia.
Qed.

Lemma binary_normalize_not_nan (m e : Z) (sz : bool) :
  f64_not_nan (binary_normalize prec emax m e sz) = true.
Proof.
  destruct m as [| p | p]; cbn [binary_normalize]; [reflexivity | |].
  - pose proof (binary_round_signed false p e) as Hs.
    destruct (binary_round prec emax false p e); cbn in *; congruence.
  - pose proof (binary_round_signed true p e) as Hs.
    destruct (binary_round prec emax true p e); cbn in *; congruence.
Qed.

Lemma binary_normalize_nonneg (m e : Z) :
  0 <= m -> f64_signed false (binary_normalize prec emax m e false) = true.
Proof.
  intros Hm. destruct m as [| p | p]; cbn [binary_normalize]; [reflexivity | | lia].
  apply binary_round_signed.
Qed.

Lemma f64_signed_not_nan (s : bool) (x : spec_float) :
  f64_signed s x = true -> f64_not_nan x = true.
Proof. destruct x; cbn; congruence. Qed.

Lemma f64_signed_ge_zero (x : spec_float) :
  f64_signed false x = true -> SFleb (f64_of_Z 0) x = true.
Proof. destruct x as [[] | [] | | [] m e]; try discriminate; reflexivity. Qed.



Lemma SFmul_pos_finite (x y : spec_float) :
  f64_pos_finite x = true -> f64_pos_finite y = true ->
  f64_signed false (SFmul prec emax x y) = true.
Proof.
  destruct x as [| | | [] mx ex]; try discriminate.
  destruct y as [| | | [] my ey]; try discriminate.
  intros _ _. cbn [SFmul xorb]. apply binary_round_aux_signed. lia.
Qed.


Lemma SFmul_not_nan_pos_finite (x y : spec_float) :
  f64_not_nan x = true -> f64_pos_finite y = true ->
  f64_not_nan (SFmul prec emax x y) = true.
Proof.
  destruct y as [| | | [] my ey]; try discriminate.
  destruct x as [sx | sx | | sx mx ex]; try discriminate; intros _ _;
    try reflexivity.
  cbn [SFmul]. eapply f64_signed_not_nan, binary_round_aux_signed. lia.
Qed.

Lemma SFadd_nonneg (x y : spec_float) :
  f64_signed false x = true -> f64_signed false y = true ->
  f64_signed false (SFadd prec emax x y) = true.
Proof.
  destruct x as [[] | [] | | [] mx ex]; try discriminate;
    destruct y as [[] | [] | | [] my ey]; try discriminate;
    intros _ _; try reflexivity.
  cbn [SFadd cond_Zopp]. apply binary_normalize_nonneg. lia.
Qed.

Lemma SFadd_not_nan_finite (x y : spec_float) :
  f64_not_nan x = true -> f64_finite y = true ->
  f64_not_nan (SFadd prec emax x y) = true.
Proof.
  destruct x as [[] | [] | | sx mx ex]; try discriminate;
    destruct y as [[] | [] | | sy my ey]; try discriminate;
    intros _ _; try reflexivity.
  cbn [SFadd]. apply binary_normalize_not_nan.
Qed.

Lemma SFsub_not_nan_finite (x y : spec_float) :
  f64_not_nan x = true -> f64_finite y = true ->
  f64_not_nan (SFsub prec emax x y) = true.
Proof.
  destruct x as [[] | [] | | sx mx ex]; try discriminate;
    destruct y as [[] | [] | | sy my ey]; try discriminate;
    intros _ _; try reflexivity.
  cbn [SFsub]. apply binary_normalize_not_nan.
Qed.


Lemma f64_of_Z_finite (z : Z) :
  f64_fits z = true -> f64_finite (f64_of_Z z) = true.
Proof.
  unfold f64_fits. pose proof (binary_normalize_not_nan z 0 false) as Hn.
  fold (f64_of_Z z) in Hn.
  destruct (f64_of_Z z); cbn in *; congruence.
Qed.


End Binary64Signs.

(** ** Binary64: digits and shifts *)

(** Linear arithmetic over the exponent function of the format
    ([fexp e = max (e - 53) (-1074)]). *)
Ltac fexp_lia := unfold fexp, SpecFloat.emin, prec, emax in *; lia.

Section Binary64Digits.

Lemma digits2_pos_log2 (p : positive) :
  Z.pos (digits2_pos p) = Z.log2 (Z.pos p) + 1.
Proof.
  assert (Hsize : forall q, digits2_pos q = Pos.size q)
    by (induction q as [q IH | q IH |]; cbn; congruence).
  destruct p as [p | p |]; cbn; rewrite ?Hsize; lia.
Qed.

Lemma Zdigits2_bounds (m : Z) :
  0 < m -> 2 ^ (Zdigits2 m - 1) <= m < 2 ^ Zdigits2 m.
Proof.
  intros Hm. destruct m as [| p | p]; try lia.
  cbn [Zdigits2]. rewrite digits2_pos_log2.
  replace (Z.log2 (Z.pos p) + 1 - 1) with (Z.log2 (Z.pos p)) by lia.
  pose proof (Z.log2_spec (Z.pos p) Hm) as Hs.
  replace (Z.log2 (Z.pos p) + 1) with (Z.succ (Z.log2 (Z.pos p))) by lia.
  exact Hs.
Qed.

Lemma Zdigits2_unique (m d : Z) :
  0 < d -> 2 ^ (d - 1) <= m < 2 ^ d -> Zdigits2 m = d.
Proof.
  intros Hd Hb.
  assert (Hm : 0 < m) by (pose proof (Z.pow_pos_nonneg 2 (d - 1)); lia).
  destruct m as [| p | p]; try lia.
  cbn [Zdigits2]. rewrite digits2_pos_log2.
  rewrite (Z.log2_unique (Z.pos p) (d - 1)); [lia | lia |].
  replace (Z.succ (d - 1)) with d by lia. exact Hb.
Qed.

Lemma Zdigits2_pos (m : Z) : 0 < m -> 0 < Zdigits2 m.
Proof. destruct m; cbn; lia. Qed.

Lemma Zdigits2_nonneg (m : Z) : 0 <= Zdigits2 m.
Proof. destruct m; cbn; lia. Qed.

Lemma Zdigits2_ge (m k : Z) : 2 ^ (k - 1) <= m -> k <= Zdigits2 m.
Proof.
  intros Hlo.
  destruct (Z_le_gt_dec k 0) as [Hk | Hk];
    [pose proof (Zdigits2_nonneg m); lia |].
  assert (Hm : 0 < m) by (pose proof (Z.pow_pos_nonneg 2 (k - 1)); lia).
  destruct (Zdigits2_bounds m Hm) as [_ Hhi].
  destruct (Z_le_gt_dec k (Zdigits2 m)) as [Hle | Hgt]; [exact Hle | exfalso].
  assert (2 ^ Zdigits2 m <= 2 ^ (k - 1)) by (apply Z.pow_le_mono_r; lia).
  lia.
Qed.

Lemma Zdigits2_mono (a b : Z) : 0 <= a <= b -> Zdigits2 a <= Zdigits2 b.
Proof.
  intros [Ha Hab].
  destruct (Z.eq_dec a 0) as [-> | Hne]; [apply Zdigits2_nonneg |].
  apply Zdigits2_ge. destruct (Zdigits2_bounds a ltac:(lia)). lia.
Qed.

Lemma Zdigits2_div_pow2 (m n : Z) :
  0 <= m -> 0 <= n -> Zdigits2 (m / 2 ^ n) = Z.max (Zdigits2 m - n) 0.
Proof.
  intros Hm Hn.
  assert (Hp : 0 < 2 ^ n) by (apply Z.pow_pos_nonneg; lia).
  destruct (Z.eq_dec m 0) as [-> | Hne].
  { rewrite Z.div_0_l by lia. cbn. lia. }
  destruct (Zdigits2_bounds m ltac:(lia)) as [Hlo Hhi].
  pose proof (Zdigits2_pos m ltac:(lia)) as Hd.
  destruct (Z_le_gt_dec (Zdigits2 m) n) as [Hle | Hgt].
  - rewrite Z.div_small; [cbn; lia |].
    split; [lia |].
    assert (2 ^ Zdigits2 m <= 2 ^ n) by (apply Z.pow_le_mono_r; lia). lia.
  - rewrite Z.max_l by lia.
    apply Zdigits2_unique; [lia |]. split.
    + apply Z.div_le_lower_bound; [lia |].
      rewrite <- Z.pow_add_r by lia.
      replace (n + (Zdigits2 m - n - 1)) with (Zdigits2 m - 1) by lia. exact Hlo.
    + apply Z.div_lt_upper_bound; [lia |].
      rewrite <- Z.pow_add_r by lia.
      replace (n + (Zdigits2 m - n)) with (Zdigits2 m) by lia. exact Hhi.
Qed.

Lemma Zdigits2_mul_pow2 (m n : Z) :
  0 < m -> 0 <= n -> Zdigits2 (m * 2 ^ n) = Zdigits2 m + n.
Proof.
  intros Hm Hn.
  destruct (Zdigits2_bounds m Hm) as [Hlo Hhi].
  pose proof (Zdigits2_pos m Hm) as Hd.
  assert (Hp : 0 < 2 ^ n) by (apply Z.pow_pos_nonneg; lia).
  apply Zdigits2_unique; [lia |]. split.
  - replace (Zdigits2 m + n - 1) with (Zdigits2 m - 1 + n) by lia.
    rewrite Z.pow_add_r by lia. nia.
  - rewrite Z.pow_add_r by lia. nia.
Qed.

Lemma Zdigits2_mul_ge (a b : positive) :
  Zdigits2 (Z.pos a) + Zdigits2 (Z.pos b) - 1 <= Zdigits2 (Z.pos (a * b)).
Proof.
  apply Zdigits2_ge.
  destruct (Zdigits2_bounds (Z.pos a) ltac:(lia)) as [Ha _].
  destruct (Zdigits2_bounds (Z.pos b) ltac:(lia)) as [Hb _].
  pose proof (Zdigits2_pos (Z.pos a) ltac:(lia)).
  pose proof (Zdigits2_pos (Z.pos b) ltac:(lia)).
  replace (Zdigits2 (Z.pos a) + Zdigits2 (Z.pos b) - 1 - 1)
    with ((Zdigits2 (Z.pos a) - 1) + (Zdigits2 (Z.pos b) - 1)) by lia.
  rewrite Z.pow_add_r by lia. rewrite Pos2Z.inj_mul.
  apply Z.mul_le_mono_nonneg; try assumption; apply Z.pow_nonneg; lia.
Qed.

Lemma shr_1_m (mrs : shr_record) :
  0 <= shr_m mrs -> shr_m (shr_1 mrs) = shr_m mrs / 2.
Proof.
  destruct mrs as [m r s]. cbn [shr_m shr_1].
  destruct m as [| [p | p |] | p]; cbn [shr_m]; intros Hm; try lia.
  - reflexivity.
  - apply (Z.div_unique _ _ _ 1); lia.
  - apply (Z.div_unique _ _ _ 0); lia.
  - reflexivity.
Qed.

Lemma iter_pos_shr_1_m (p : positive) (mrs : shr_record) :
  0 <= shr_m mrs ->
  shr_m (SpecFloat.iter_pos shr_1 p mrs) = shr_m mrs / 2 ^ Z.pos p.
Proof.
  revert mrs. induction p as [p IH | p IH |]; intros mrs Hm; cbn [SpecFloat.iter_pos].
  - assert (Hp : 2 ^ Z.pos p~1 = 2 * (2 ^ Z.pos p * 2 ^ Z.pos p)).
    { rewrite <- Z.pow_add_r, <- Z.pow_succ_r by lia. f_equal. lia. }
    rewrite IH, IH, shr_1_m; auto using shr_1_nonneg, iter_pos_shr_1_nonneg.
    rewrite !Z.div_div by lia. rewrite Hp. reflexivity.
  - assert (Hp : 2 ^ Z.pos p~0 = 2 ^ Z.pos p * 2 ^ Z.pos p).
    { rewrite <- Z.pow_add_r by lia. f_equal. lia. }
    rewrite IH, IH; auto using iter_pos_shr_1_nonneg.
    rewrite !Z.div_div by lia. rewrite Hp. reflexivity.
  - rewrite shr_1_m by exact Hm. reflexivity.
Qed.

(** What [shr_fexp] computes: a right shift by the exponent gap. *)
Lemma shr_fexp_spec (m e : Z) (l : location) :
  0 <= m ->
  let n := Z.max (fexp prec emax (Zdigits2 m + e) - e) 0 in
  shr_m (fst (shr_fexp prec emax m e l)) = m / 2 ^ n
  /\ snd (shr_fexp prec emax m e l) = e + n.
Proof.
  intros Hm n. unfold shr_fexp, shr. subst n.
  assert (H0 : shr_m (shr_record_of_loc m l) = m) by (destruct l as [| []]; reflexivity).
  destruct (fexp prec emax (Zdigits2 m + e) - e) as [| p | p] eqn:En; cbn [fst snd].
  - rewrite Z.max_r by lia. rewrite Z.pow_0_r, Z.div_1_r. split; [exact H0 | lia].
  - rewrite Z.max_l by lia. rewrite iter_pos_shr_1_m by (rewrite H0; exact Hm).
    rewrite H0. split; reflexivity.
  - rewrite Z.max_r by lia. rewrite Z.pow_0_r, Z.div_1_r. split; [exact H0 | lia].
Qed.

(** After [shr_fexp] on an exponent that is not too large, mantissa and
    exponent are in canonical position. *)
Lemma shr_fexp_canonical (m e : Z) (l : location) :
  0 <= m -> e <= fexp prec emax (Zdigits2 m + e) ->
  let m' := shr_m (fst (shr_fexp prec emax m e l)) in
  let e' := snd (shr_fexp prec emax m e l) in
  0 <= m' /\ e' = fexp prec emax (Zdigits2 m' + e').
Proof.
  intros Hm He m' e'.
  destruct (shr_fexp_spec m e l Hm) as [Hm' He'].
  fold m' in Hm'. fold e' in He'.
  split; [apply shr_fexp_nonneg, Hm |].
  rewrite Hm', He'.
  rewrite Zdigits2_div_pow2 by lia.
  pose proof (Zdigits2_nonneg m).
  fexp_lia.
Qed.


Lemma shl_align_spec (m : positive) (e e' : Z) :
  let '(mz, ez) := shl_align m e e' in
  Z.pos mz = Z.pos m * 2 ^ (e - Z.min e e') /\ ez = Z.min e e'.
Proof.
  unfold shl_align. destruct (e' - e) as [| d | d] eqn:Ed.
  - rewrite Z.min_l by lia. rewrite Z.sub_diag. cbn. lia.
  - rewrite Z.min_l by lia. rewrite Z.sub_diag. cbn. lia.
  - rewrite Z.min_r by lia. split; [| reflexivity].
    replace (e - e') with (Z.pos d) by lia.
    rewrite Pos2Nat.inj_iter.
    rewrite <- (positive_nat_Z d).
    induction (Pos.to_nat d) as [| k IH]; [cbn; lia |].
    rewrite Nat2Z.inj_succ, Z.pow_succ_r by lia.
    cbn [nat_rect]. rewrite Pos2Z.inj_xO, IH. lia.
Qed.


End Binary64Digits.

(** ** Binary64: every result is a valid double *)

Section Binary64Valid.

Lemma round_nearest_even_range (m : Z) (l : location) :
  m <= round_nearest_even m l <= m + 1.
Proof. destruct l as [| []]; cbn; try destruct (Z.even m); lia. Qed.

Lemma fexp_mono (a b : Z) : a <= b -> fexp prec emax a <= fexp prec emax b.
Proof. fexp_lia. Qed.

Lemma bounded_spec (m : positive) (e : Z) :
  bounded prec emax m e = true <->
  e = fexp prec emax (Z.pos (digits2_pos m) + e) /\ e <= emax - prec.
Proof.
  unfold bounded, canonical_mantissa.
  rewrite andb_true_iff, Z.eqb_eq, Z.leb_le. intuition congruence.
Qed.


(** Rounding from a position at or below the canonical one gives a valid
    double. *)
Lemma binary_round_aux_valid (s : bool) (m e : Z) (l : location) :
  0 <= m -> e <= fexp prec emax (Zdigits2 m + e) ->
  valid_binary prec emax (binary_round_aux prec emax s m e l) = true.
Proof.
  intros Hm He. unfold binary_round_aux.
  destruct (shr_fexp_canonical m e l Hm He) as [Hm1 He1].
  destruct (shr_fexp prec emax m e l) as [mrs1 e1]. cbn [fst snd] in Hm1, He1.
  set (m2 := round_nearest_even (shr_m mrs1) (loc_of_shr_record mrs1)).
  pose proof (round_nearest_even_range (shr_m mrs1) (loc_of_shr_record mrs1)) as Hr.
  fold m2 in Hr.
  assert (Hm2 : 0 <= m2) by lia.
  assert (He2 : e1 <= fexp prec emax (Zdigits2 m2 + e1)).
  { rewrite He1 at 1. apply fexp_mono.
    pose proof (Zdigits2_mono (shr_m mrs1) m2). lia. }
  destruct (shr_fexp_canonical m2 e1 loc_Exact Hm2 He2) as [Hm3 He3].
  destruct (shr_fexp prec emax m2 e1 loc_Exact) as [mrs3 e3].
  cbn [fst snd] in Hm3, He3.
  destruct (shr_m mrs3) as [| p | p]; [reflexivity | | lia].
  destruct (e3 <=? emax - prec) eqn:Hle; [| reflexivity].
  cbn [valid_binary]. unfold bounded, canonical_mantissa.
  rewrite Hle, andb_true_r. apply Z.eqb_eq. cbn [Zdigits2] in He3. lia.
Qed.

Lemma binary_round_valid (s : bool) (m : positive) (e : Z) :
  valid_binary prec emax (binary_round prec emax s m e) = true.
Proof.
  unfold binary_round.
  pose proof (shl_align_spec m e (fexp prec emax (Z.pos (digits2_pos m) + e))) as Hal.
  destruct (shl_align m e _) as [mz ez]. destruct Hal as [Hmz Hez].
  apply binary_round_aux_valid; [lia |].
  rewrite Hmz.
  rewrite Zdigits2_mul_pow2 by lia.
  change (Zdigits2 (Z.pos m)) with (Z.pos (digits2_pos m)).
  subst ez. fexp_lia.
Qed.

Lemma binary_normalize_valid (m e : Z) (sz : bool) :
  valid_binary prec emax (binary_normalize prec emax m e sz) = true.
Proof.
  destruct m as [| p | p]; cbn [binary_normalize];
    [reflexivity | apply binary_round_valid | apply binary_round_valid].
Qed.

Lemma f64_of_Z_valid (z : Z) : valid_binary prec emax (f64_of_Z z) = true.
Proof. apply binary_normalize_valid. Qed.

Lemma SFmul_valid (x y : spec_float) :
  valid_binary prec emax x = true -> valid_binary prec emax y = true ->
  valid_binary prec emax (SFmul prec emax x y) = true.
Proof.
  destruct x as [sx | sx | | sx mx ex], y as [sy | sy | | sy my ey];
    try reflexivity.
  cbn [valid_binary SFmul]. intros Hx Hy.
  apply bounded_spec in Hx as [Hx _]. apply bounded_spec in Hy as [Hy _].
  apply binary_round_aux_valid; [lia |].
  pose proof (Zdigits2_mul_ge mx my) as Hd. cbn [Zdigits2] in Hd.
  cbn [Zdigits2].
  fexp_lia.
Qed.

Lemma SFadd_valid (x y : spec_float) :
  valid_binary prec emax x = true -> valid_binary prec emax y = true ->
  valid_binary prec emax (SFadd prec emax x y) = true.
Proof.
  destruct x as [[] | [] | | sx mx ex], y as [[] | [] | | sy my ey];
    try reflexivity; intros Hx Hy; try assumption.
  cbn [SFadd]. apply binary_normalize_valid.
Qed.

Lemma SFsub_valid (x y : spec_float) :
  valid_binary prec emax x = true -> valid_binary prec emax y = true ->
  valid_binary prec emax (SFsub prec emax x y) = true.
Proof.
  destruct x as [[] | [] | | sx mx ex], y as [[] | [] | | sy my ey];
    try reflexivity; intros Hx Hy; try assumption.
  cbn [SFsub]. apply binary_normalize_valid.
Qed.

Lemma pymax_valid (x c : spec_float) :
  valid_binary prec emax x = true -> valid_binary prec emax c = true ->
  valid_binary prec emax (pymax x c) = true.
Proof. intros Hx Hc. unfold pymax. destruct (pygt c x); assumption. Qed.

End Binary64Valid.

(** ** Binary64: comparison and subtraction agree *)

Section Binary64Order.







End Binary64Order.

(** ** Binary64: the calculator on valid inputs *)

Section Binary64Calculator.

Lemma f64_between_pos_finite (lo hi : Q) (x : spec_float) :
  f64_pos_finite (f64_of_Q lo) = true -> f64_finite (f64_of_Q hi) = true ->
  f64_between lo hi x = true -> f64_pos_finite x = true.
Proof.
  unfold f64_between.
  destruct (f64_of_Q lo) as [| | | [] ml el]; try discriminate.
  destruct (f64_of_Q hi) as [sh | | | sh mh eh]; try discriminate;
    intros _ _ Hb; apply andb_prop in Hb as [Hb Hhi];
    apply andb_prop in Hb as [_ Hlo];
    destruct x as [sx | [] | | [] mx ex]; cbn in *; congruence.
Qed.

Lemma f64_between_valid (lo hi : Q) (x : spec_float) :
  f64_between lo hi x = true -> valid_binary prec emax x = true.
Proof.
  unfold f64_between. intros Hb.
  apply andb_prop in Hb as [Hb _]. apply andb_prop in Hb as [Hb _]. exact Hb.
Qed.

Lemma age_fits (age : Z) :
  12 <= age <= 100 -> f64_fits (5 * age) = true.
Proof.
  intros Hage.
  assert (Hall : forallb (fun n => f64_fits (5 * Z.of_nat n)) (seq 12 89) = true)
    by (vm_compute; reflexivity).
  rewrite forallb_forall in Hall.
  specialize (Hall (Z.to_nat age)).
  rewrite Z2Nat.id in Hall by lia. apply Hall.
  apply in_seq. lia.
Qed.

(** What the ranges of the form give for each double. *)
Lemma valid_inputs_f64_facts (age : Z) (h w wg af ppk fpk : spec_float) :
  valid_inputs_f64 age h w wg af ppk fpk = true ->
  12 <= age <= 100
  /\ Forall (fun x => f64_pos_finite x = true /\ valid_binary prec emax x = true)
       (h :: w :: wg :: af :: ppk :: fpk :: nil).
Proof.
  unfold valid_inputs_f64. intros Hv.
  repeat (apply andb_prop in Hv as [Hv ?]).
  apply Z.leb_le in Hv.
  split; [lia |].
  repeat constructor;
    try (eapply f64_between_pos_finite; [| | eassumption]; reflexivity);
    eapply f64_between_valid; eassumption.
Qed.

(** The resting rate is never NaN for positive finite weight and height. *)
Lemma rmr_not_nan (w h a c : spec_float) (plus : bool) :
  f64_pos_finite w = true -> f64_pos_finite h = true ->
  f64_finite a = true -> f64_finite c = true ->
  f64_not_nan
    (if plus then (of_int 10 * w + of_decimal 6.25 * h - a + c)%py
     else (of_int 10 * w + of_decimal 6.25 * h - a - c)%py) = true.
Proof.
  intros Hw Hh Ha Hc.
  assert (Hs : f64_not_nan (of_int 10 * w + of_decimal 6.25 * h - a)%py = true).
  { apply SFsub_not_nan_finite; [| exact Ha].
    apply (f64_signed_not_nan false), SFadd_nonneg;
      apply SFmul_pos_finite; auto. }
  destruct plus.
  - apply SFadd_not_nan_finite; assumption.
  - apply SFsub_not_nan_finite; assumption.
Qed.



End Binary64Calculator.

(** ** Strings and formatting *)

Section StringFacts.

Lemma upper_ascii_M (c : ascii) :
  upper_ascii c = "M"%char <-> c = "M"%char \/ c = "m"%char.
Proof.
  destruct c as [[] [] [] [] [] [] [] []]; vm_compute;
    (split; [intros Hc; try discriminate Hc; auto
            | intros [Hc | Hc]; try discriminate Hc; reflexivity]).
Qed.

(** Only ["M"] and ["m"] have the upper-case form ["M"]. *)
Lemma upper_eq_M (sex : string) :
  upper sex = "M" <-> sex = "M" \/ sex = "m".
Proof.
  destruct sex as [| c [| c' rest]]; cbn [upper].
  - split; [discriminate | intros [Hs | Hs]; discriminate Hs].
  - split.
    + intros Hu. injection Hu as Hc. apply upper_ascii_M in Hc.
      destruct Hc as [-> | ->]; auto.
    + intros [Hs | Hs]; injection Hs as ->; reflexivity.
  - split; [discriminate | intros [Hs | Hs]; discriminate Hs].
Qed.

Lemma upper_eqb_M (sex : string) :
  String.eqb (upper sex) "M" = true <-> sex = "M" \/ sex = "m".
Proof. rewrite String.eqb_eq. apply upper_eq_M. Qed.

Lemma append_assoc (a b c : string) : (a ++ b) ++ c = a ++ (b ++ c).
Proof.
  induction a as [| ch a IH]; [reflexivity |].
  change (String ch ((a ++ b) ++ c) = String ch (a ++ (b ++ c))).
  rewrite IH. reflexivity.
Qed.

Lemma append_empty_r (a : string) : a ++ EmptyString = a.
Proof.
  induction a as [| ch a IH]; [reflexivity |].
  change (String ch (a ++ EmptyString) = String ch a). rewrite IH. reflexivity.
Qed.






End StringFacts.

(** ** Plan request *)

Section PipelineFacts.
Context {F : Type} `{PyNum F}.
Variable chat_completions_create :
  string -> list (string * string) -> result (list string).

(** The plan request fails exactly when the client raises or returns no
    choice. *)
Lemma generate_meal_plan_raises
    (macros : MacroResult F) (allergies dislikes preferred_store : string)
    (weekly_budget : F) (language : string) (e : pyexc) :
  generate_meal_plan_with_ai chat_completions_create macros allergies
    dislikes preferred_store weekly_budget language = Raise e
  <-> (let messages :=
         ("system", system_content)
         :: ("user", build_mealplan_prompt macros allergies dislikes
                       preferred_store weekly_budget language) :: nil in
       chat_completions_create MODEL_NAME messages = Raise e
       \/ (chat_completions_create MODEL_NAME messages = Ok nil
           /\ e = IndexError)).
Proof.
  unfold generate_meal_plan_with_ai. cbv zeta.
  destruct (chat_completions_create MODEL_NAME _) as [[| c cs] | e']; cbn.
  - split; [intros [= <-]; auto | intros [Hc | [_ ->]]; congruence].
  - split; [discriminate | intros [Hc | [Hc _]]; discriminate Hc].
  - split; [intros [= <-]; auto | intros [[= ->] | [Hc _]]; congruence].
Qed.

End PipelineFacts.

(** * The claims *)








(** Both branches of C3 on concrete forms, in double arithmetic: the
    default form leaves 222.765625 g of carbohydrates, the form of the C2
    counterexample none. *)
Example carbs_examples :
  (exists r : MacroResult spec_float,
     calculate_macros "M" 30 (of_int 170) (of_int 70) (of_int 65) "Current"
       (of_decimal 1.375) "Moderate" (of_decimal 1.4) (of_decimal 0.7) = Ok r
     /\ carbs_g r = of_decimal 222.765625)
  /\ (exists r : MacroResult spec_float,
        calculate_macros "F" 60 (of_int 150) (of_int 100) (of_int 100) "Current"
          (of_decimal 1.2) "Aggressive" (of_decimal 2.0) (of_decimal 1.0) = Ok r
        /\ carbs_g r = of_int 0
        /\ protein_g r = of_int 200 /\ fat_g r = of_int 100).
Proof.
  split; eexists; (split; [vm_compute; reflexivity |]);
    repeat split; vm_compute; reflexivity.
Qed.


(** C4 (as amended). In every lawful number model, for an age that
    promotes to a float and any of the three intensities, [calculate_macros]
    returns a result with [rmr = 10*weight_current_kg + 6.25*height_cm -
    5*age + 5] when [sex.upper()] is ["M"] and [... - 161] otherwise,
    whatever [weight_source] is, and [tdee = rmr * activity_factor].  In
    double arithmetic, sex M, age 30, height 170, current weight 70,
    activity 1.375 and Moderate give rmr 1617.5, tdee 2224.0625 and
    target_kcal 1724.0625, whatever the remaining arguments are. *)
Theorem rmr_tdee_formula {F : Type} `{PyNumLaws F}
    (sex : string) (age : Z) (height_cm weight_current_kg weight_goal_kg : F)
    (weight_source : string) (activity_factor : F) (intensity : string)
    (protein_g_per_kg fat_g_per_kg : F) :
  int_fits (F:=F) (5 * age) = true ->
  intensity_enum intensity ->
  (exists r : MacroResult F,
     calculate_macros sex age height_cm weight_current_kg weight_goal_kg
       weight_source activity_factor intensity protein_g_per_kg fat_g_per_kg
     = Ok r
     /\ (upper sex = "M" ->
         rmr r = (of_int 10 * weight_current_kg + of_decimal 6.25 * height_cm
                  - of_int (5 * age) + of_int 5)%py)
     /\ (upper sex <> "M" ->
         rmr r = (of_int 10 * weight_current_kg + of_decimal 6.25 * height_cm
                  - of_int (5 * age) - of_int 161)%py)
     /\ tdee r = (rmr r * activity_factor)%py)
  /\ (forall (goal : spec_float) (source : string) (protein fat : spec_float),
      exists r : MacroResult spec_float,
        calculate_macros "M" 30 (of_int 170) (of_int 70) goal source
          (of_decimal 1.375) "Moderate" protein fat = Ok r
        /\ rmr r = of_decimal 1617.5
        /\ tdee r = of_decimal 2224.0625
        /\ target_kcal r = of_decimal 1724.0625).
Proof.
  intros Hfit Hi. split.
  - destruct (dict_getitem_enum intensity Hi) as (d & Hd & _).
    destruct (calculate_macros_spec sex age height_cm weight_current_kg
                weight_goal_kg weight_source activity_factor intensity
                protein_g_per_kg fat_g_per_kg d Hfit Hd)
      as (r & Hr & Hrmr & Htdee & _).
    exists r. split; [exact Hr |].
    destruct (String.eqb_spec (upper sex) "M") as [Hu | Hu].
    + repeat split; [intros _; exact Hrmr | intros Hn; contradiction | exact Htdee].
    + repeat split; [intros Hy; contradiction | intros _; exact Hrmr | exact Htdee].
  - intros goal source protein fat.
    assert (Hfit30 : int_fits (F:=spec_float) (5 * 30) = true) by reflexivity.
    assert (Hd : dict_getitem deficit_map "Moderate" = Ok 500) by reflexivity.
    destruct (calculate_macros_spec "M" 30 (of_int 170) (of_int 70) goal source
                (of_decimal 1.375) "Moderate" protein fat 500 Hfit30 Hd)
      as (r & Hr & Hrmr & Htdee & Htgt & _).
    exists r. split; [exact Hr |].
    assert (Hrmr' : rmr r = of_decimal 1617.5) by (rewrite Hrmr; vm_compute; reflexivity).
    assert (Htdee' : tdee r = of_decimal 2224.0625)
      by (rewrite Htdee, Hrmr'; vm_compute; reflexivity).
    repeat split; [exact Hrmr' | exact Htdee' |].
    rewrite Htgt, Htdee'. vm_compute. reflexivity.
Qed.

Lemma rmr_tdee_formula_witness :
  int_fits (F:=spec_float) (5 * 45) = true
  /\ intensity_enum "Gentle"
  /\ (exists r : MacroResult spec_float,
        calculate_macros "f" 45 (of_int 160) (of_int 80) (of_int 70) "Goal"
          (of_decimal 1.55) "Gentle" (of_decimal 1.2) (of_decimal 0.8) = Ok r
        /\ (upper "f" = "M" ->
            rmr r = (of_int 10 * of_int 80 + of_decimal 6.25 * of_int 160
                     - of_int (5 * 45) + of_int 5)%py)
        /\ (upper "f" <> "M" ->
            rmr r = (of_int 10 * of_int 80 + of_decimal 6.25 * of_int 160
                     - of_int (5 * 45) - of_int 161)%py)
        /\ tdee r = (rmr r * of_decimal 1.55)%py)
     /\ (forall (goal : spec_float) (source : string) (protein fat : spec_float),
         exists r : MacroResult spec_float,
           calculate_macros "M" 30 (of_int 170) (of_int 70) goal source
             (of_decimal 1.375) "Moderate" protein fat = Ok r
           /\ rmr r = of_decimal 1617.5
           /\ tdee r = of_decimal 2224.0625
           /\ target_kcal r = of_decimal 1724.0625).
Proof.
  split; [reflexivity |]. split; [left; reflexivity |].
  apply (rmr_tdee_formula "f" 45 (of_int 160) (of_int 80) (of_int 70) "Goal"
           (of_decimal 1.55) "Gentle" (of_decimal 1.2) (of_decimal 0.8)).
  - reflexivity.
  - left; reflexivity.
Defined.

(** C4 fails as stated: at the spec's example the code returns rmr 1617.5,
    tdee 2224.0625 and target_kcal 1724.0625 (in double and in exact
    arithmetic), not 1706.5, 2346.4375 and 1846.4375. *)
Lemma rmr_example_counterexample :
  (exists r : MacroResult spec_float,
     calculate_macros "M" 30 (of_int 170) (of_int 70) (of_int 65) "Current"
       (of_decimal 1.375) "Moderate" (of_decimal 1.4) (of_decimal 0.7) = Ok r
     /\ rmr r = of_decimal 1617.5 /\ rmr r <> of_decimal 1706.5
     /\ tdee r = of_decimal 2224.0625 /\ tdee r <> of_decimal 2346.4375
     /\ target_kcal r = of_decimal 1724.0625
     /\ target_kcal r <> of_decimal 1846.4375)
  /\ (exists r : MacroResult Q,
        calculate_macros "M" 30 170%Q 70%Q 65%Q "Current" 1.375%Q "Moderate"
          1.4%Q 0.7%Q = Ok r
        /\ (rmr r == 1617.5)%Q /\ ~ (rmr r == 1706.5)%Q
        /\ (tdee r == 2224.0625)%Q /\ ~ (tdee r == 2346.4375)%Q
        /\ (target_kcal r == 1724.0625)%Q
        /\ ~ (target_kcal r == 1846.4375)%Q).
Proof.
  split.
  - eexists. split; [vm_compute; reflexivity |].
    repeat split; try (vm_compute; reflexivity); vm_compute; discriminate.
  - eexists. split; [vm_compute; reflexivity |].
    repeat split; try (vm_compute; reflexivity); vm_compute; discriminate.
Qed.

(** C5. In every lawful number model, with all other arguments fixed, the
    results for [weight_source = "Current"] and [weight_source = "Goal"] have
    the same [rmr], [tdee] and [target_kcal]; [protein_g] and [fat_g] are the
    current weight times the ratios in the first and the goal weight times
    the ratios in the second. *)
Theorem weight_source_only_scales_macros {F : Type} `{PyNumLaws F}
    (sex : string) (age : Z) (height_cm weight_current_kg weight_goal_kg : F)
    (activity_factor : F) (intensity : string)
    (protein_g_per_kg fat_g_per_kg : F) :
  int_fits (F:=F) (5 * age) = true ->
  intensity_enum intensity ->
  exists rc rg : MacroResult F,
    calculate_macros sex age height_cm weight_current_kg weight_goal_kg
      "Current" activity_factor intensity protein_g_per_kg fat_g_per_kg = Ok rc
    /\ calculate_macros sex age height_cm weight_current_kg weight_goal_kg
         "Goal" activity_factor intensity protein_g_per_kg fat_g_per_kg = Ok rg
    /\ rmr rc = rmr rg
    /\ tdee rc = tdee rg
    /\ target_kcal rc = target_kcal rg
    /\ protein_g rc = (weight_current_kg * protein_g_per_kg)%py
    /\ fat_g rc = (weight_current_kg * fat_g_per_kg)%py
    /\ protein_g rg = (weight_goal_kg * protein_g_per_kg)%py
    /\ fat_g rg = (weight_goal_kg * fat_g_per_kg)%py.
Proof.
  intros Hfit Hi.
  destruct (dict_getitem_enum intensity Hi) as (d & Hd & _).
  destruct (calculate_macros_spec sex age height_cm weight_current_kg
              weight_goal_kg "Current" activity_factor intensity
              protein_g_per_kg fat_g_per_kg d Hfit Hd)
    as (rc & Hrc & Hrmr_c & Htdee_c & Htgt_c & Hpg_c & Hfg_c & _).
  destruct (calculate_macros_spec sex age height_cm weight_current_kg
              weight_goal_kg "Goal" activity_factor intensity
              protein_g_per_kg fat_g_per_kg d Hfit Hd)
    as (rg & Hrg & Hrmr_g & Htdee_g & Htgt_g & Hpg_g & Hfg_g & _).
  exists rc, rg.
  assert (Hrmr : rmr rc = rmr rg) by congruence.
  assert (Htdee : tdee rc = tdee rg) by congruence.
  assert (Htgt : target_kcal rc = target_kcal rg) by congruence.
  repeat split; assumption.
Qed.

Lemma weight_source_only_scales_macros_witness :
  int_fits (F:=spec_float) (5 * 30) = true
  /\ intensity_enum "Moderate"
  /\ exists rc rg : MacroResult spec_float,
       calculate_macros "M" 30 (of_int 170) (of_int 70) (of_int 65)
         "Current" (of_decimal 1.375) "Moderate" (of_decimal 1.4)
         (of_decimal 0.7) = Ok rc
       /\ calculate_macros "M" 30 (of_int 170) (of_int 70) (of_int 65)
            "Goal" (of_decimal 1.375) "Moderate" (of_decimal 1.4)
            (of_decimal 0.7) = Ok rg
       /\ rmr rc = rmr rg
       /\ tdee rc = tdee rg
       /\ target_kcal rc = target_kcal rg
       /\ protein_g rc = (of_int 70 * of_decimal 1.4)%py
       /\ fat_g rc = (of_int 70 * of_decimal 0.7)%py
       /\ protein_g rg = (of_int 65 * of_decimal 1.4)%py
       /\ fat_g rg = (of_int 65 * of_decimal 0.7)%py.
Proof.
  split; [reflexivity |]. split; [right; left; reflexivity |].
  apply (weight_source_only_scales_macros "M" 30 (of_int 170) (of_int 70)
           (of_int 65) (of_decimal 1.375) "Moderate" (of_decimal 1.4)
           (of_decimal 0.7)).
  - reflexivity.
  - right; left; reflexivity.
Defined.

(** C6. For every macro result and preference fields, the prompt is a
    newline, the language directive and a remainder that does not depend on
    the language; the directive for ["Spanish"] is the Spanish text, differs
    from the one for ["English"], and so do the two prompts; every language
    value other than ["Spanish"] gives the English directive and the same
    prompt as ["English"]. *)
Theorem language_directive {F : Type} `{PyNum F}
    (macros : MacroResult F) (allergies dislikes preferred_store : string)
    (weekly_budget : F) :
  (exists rest : string, forall language : string,
     build_mealplan_prompt macros allergies dislikes preferred_store
       weekly_budget language
     = String newline (lang_note language ++ rest))
  /\ lang_note "Spanish" = lang_note_spanish
  /\ contains "Responde TODO en español" (lang_note "Spanish")
  /\ lang_note "Spanish" <> lang_note "English"
  /\ build_mealplan_prompt macros allergies dislikes preferred_store
       weekly_budget "Spanish"
     <> build_mealplan_prompt macros allergies dislikes preferred_store
          weekly_budget "English"
  /\ (forall language : string, language <> "Spanish" ->
        lang_note language = lang_note_english
        /\ build_mealplan_prompt macros allergies dislikes preferred_store
             weekly_budget language
           = build_mealplan_prompt macros allergies dislikes preferred_store
               weekly_budget "English").
Proof.
  assert (Hother : forall language : string, language <> "Spanish" ->
                     lang_note language = lang_note_english).
  { intros language Hne. unfold lang_note.
    destruct (String.eqb_spec language "Spanish"); [contradiction | reflexivity]. }
  split.
  { eexists. intros language. unfold build_mealplan_prompt. reflexivity. }
  split; [reflexivity |].
  split.
  { exists "IMPORTANT: ".
    exists ", incluyendo encabezados, etiquetas y descripciones. Usa un estilo claro y fácil de entender para pacientes.".
    reflexivity. }
  split; [discriminate |].
  split.
  { unfold build_mealplan_prompt. intros Heq.
    apply (f_equal (String.get 19)) in Heq. cbn in Heq. discriminate Heq. }
  intros language Hne. split; [apply Hother, Hne |].
  unfold build_mealplan_prompt. rewrite (Hother language Hne). reflexivity.
Qed.



(** What the user sees when the network is down. *)
Example failing_client_run :
  main_submitted failing_client blank_renderer example_inputs
  = Ok (st_success "Calculated macros successfully."
        :: st_subheader "Calculated Energy and Macros"
        :: st_metric "Resting Metabolic Rate (RMR)" "1618 kcal/day"
        :: st_metric "TDEE (maintenance)" "2224 kcal/day"
        :: st_metric "Weight-loss target" "1724 kcal/day"
        :: st_write "Daily macros"
        :: st_write "- Protein: 98 g (22.7% kcal)"
        :: st_write "- Fat: 49 g (25.6% kcal)"
        :: st_write "- Carbs: 223 g (51.7% kcal)"
        :: st_divider
        :: st_subheader "AI-Generated 7-Day Meal Plan"
        :: st_spinner "Calling AI to generate your meal plan..."
        :: st_error "Error generating meal plan: Connection error."
        :: nil).
Proof. vm_compute. reflexivity. Qed.



(** The constraints block on a concrete form. *)
Example prompt_constraints_example :
  prompt_constraints "peanuts" EmptyString EmptyString (of_decimal 87.5 : spec_float)
  = "CONSTRAINTS:
- Allergies / must AVOID: peanuts
- Foods to avoid / dislikes: none specified
- Weekly grocery budget: $87.50 for all 7 days
- Preferred grocery store or market: generic US supermarket".
Proof. vm_compute. reflexivity. Qed.

(** C9. In every lawful number model, for an age that promotes and any of
    the three intensities, [calculate_macros] returns for every sex string;
    the male constant [+ 5] is used exactly for ["M"] and ["m"], and every
    other string, the empty one included, gets the female constant
    [- 161]. *)
Theorem sex_defaults_to_female {F : Type} `{PyNumLaws F}
    (sex : string) (age : Z) (height_cm weight_current_kg weight_goal_kg : F)
    (weight_source : string) (activity_factor : F) (intensity : string)
    (protein_g_per_kg fat_g_per_kg : F) :
  int_fits (F:=F) (5 * age) = true ->
  intensity_enum intensity ->
  exists r : MacroResult F,
    calculate_macros sex age height_cm weight_current_kg weight_goal_kg
      weight_source activity_factor intensity protein_g_per_kg fat_g_per_kg
    = Ok r
    /\ (upper sex = "M" <-> sex = "M" \/ sex = "m")
    /\ (sex = "M" \/ sex = "m" ->
        rmr r = (of_int 10 * weight_current_kg + of_decimal 6.25 * height_cm
                 - of_int (5 * age) + of_int 5)%py)
    /\ (sex <> "M" -> sex <> "m" ->
        rmr r = (of_int 10 * weight_current_kg + of_decimal 6.25 * height_cm
                 - of_int (5 * age) - of_int 161)%py).
Proof.
  intros Hfit Hi.
  destruct (dict_getitem_enum intensity Hi) as (d & Hd & _).
  destruct (calculate_macros_spec sex age height_cm weight_current_kg
              weight_goal_kg weight_source activity_factor intensity
              protein_g_per_kg fat_g_per_kg d Hfit Hd)
    as (r & Hr & Hrmr & _).
  exists r. split; [exact Hr |]. split; [apply upper_eq_M |].
  destruct (String.eqb (upper sex) "M") eqn:Hu.
  - split; [intros _; exact Hrmr |].
    apply upper_eqb_M in Hu. intros HM Hm. destruct Hu; contradiction.
  - split; [| intros _ _; exact Hrmr].
    intros Hs. apply upper_eqb_M in Hs. congruence.
Qed.

Lemma sex_defaults_to_female_witness :
  int_fits (F:=spec_float) (5 * 30) = true
  /\ intensity_enum "Moderate"
  /\ exists r : MacroResult spec_float,
       calculate_macros EmptyString 30 (of_int 170) (of_int 70) (of_int 65)
         "Current" (of_decimal 1.375) "Moderate" (of_decimal 1.4)
         (of_decimal 0.7) = Ok r
       /\ (upper EmptyString = "M" <-> EmptyString = "M" \/ EmptyString = "m")
       /\ (EmptyString = "M" \/ EmptyString = "m" ->
           rmr r = (of_int 10 * of_int 70 + of_decimal 6.25 * of_int 170
                    - of_int (5 * 30) + of_int 5)%py)
       /\ (EmptyString <> "M" -> EmptyString <> "m" ->
           rmr r = (of_int 10 * of_int 70 + of_decimal 6.25 * of_int 170
                    - of_int (5 * 30) - of_int 161)%py).
Proof.
  split; [reflexivity |]. split; [right; left; reflexivity |].
  apply (sex_defaults_to_female EmptyString 30 (of_int 170) (of_int 70)
           (of_int 65) "Current" (of_decimal 1.375) "Moderate"
           (of_decimal 1.4) (of_decimal 0.7)).
  - reflexivity.
  - right; left; reflexivity.
Defined.

(** C10. In every lawful number model and for an age that promotes to a
    float, [calculate_macros] returns a result (raises nothing) for each of
    the three intensities, and raises [KeyError(intensity)] for every other
    intensity string. *)
Theorem total_on_enum_keyerror_otherwise {F : Type} `{PyNumLaws F}
    (sex : string) (age : Z) (height_cm weight_current_kg weight_goal_kg : F)
    (weight_source : string) (activity_factor : F) (intensity : string)
    (protein_g_per_kg fat_g_per_kg : F) :
  int_fits (F:=F) (5 * age) = true ->
  (intensity_enum intensity ->
   exists r : MacroResult F,
     calculate_macros sex age height_cm weight_current_kg weight_goal_kg
       weight_source activity_factor intensity protein_g_per_kg fat_g_per_kg
     = Ok r)
  /\ (~ intensity_enum intensity ->
      calculate_macros sex age height_cm weight_current_kg weight_goal_kg
        weight_source activity_factor intensity protein_g_per_kg fat_g_per_kg
      = Raise (KeyError intensity)).
Proof.
  intros Hfit. split.
  - intros Hi. destruct (dict_getitem_enum intensity Hi) as (d & Hd & _).
    destruct (calculate_macros_spec sex age height_cm weight_current_kg
                weight_goal_kg weight_source activity_factor intensity
                protein_g_per_kg fat_g_per_kg d Hfit Hd) as (r & Hr & _).
    exists r. exact Hr.
  - intros Hn. unfold calculate_macros, promote.
    rewrite Hfit, (dict_getitem_not_enum intensity Hn).
    destruct (String.eqb (upper sex) "M"); reflexivity.
Qed.

Lemma total_on_enum_keyerror_otherwise_witness :
  int_fits (F:=spec_float) (5 * 30) = true
  /\ (intensity_enum "Extreme" ->
      exists r : MacroResult spec_float,
        calculate_macros "M" 30 (of_int 170) (of_int 70) (of_int 65) "Current"
          (of_decimal 1.375) "Extreme" (of_decimal 1.4) (of_decimal 0.7) = Ok r)
  /\ (~ intensity_enum "Extreme" ->
      calculate_macros "M" 30 (of_int 170) (of_int 70) (of_int 65) "Current"
        (of_decimal 1.375) "Extreme" (of_decimal 1.4) (of_decimal 0.7)
      = Raise (KeyError "Extreme")).
Proof.
  split; [reflexivity |].
  apply (total_on_enum_keyerror_otherwise "M" 30 (of_int 170) (of_int 70)
           (of_int 65) "Current" (of_decimal 1.375) "Extreme" (of_decimal 1.4)
           (of_decimal 0.7)).
  reflexivity.
Defined.

Lemma total_on_enum_keyerror_otherwise_cases :
  (exists r : MacroResult spec_float,
     calculate_macros "M" 30 (of_int 170) (of_int 70) (of_int 65) "Current"
       (of_decimal 1.375) "Gentle" (of_decimal 1.4) (of_decimal 0.7) = Ok r)
  /\ calculate_macros "M" 30 (of_int 170) (of_int 70) (of_int 65) "Current"
       (of_decimal 1.375) "gentle" (of_decimal 1.4) (of_decimal 0.7)
     = Raise (KeyError "gentle").
Proof.
  split.
  - eexists. vm_compute. reflexivity.
  - vm_compute. reflexivity.
Qed.

(** * Further properties of the code *)

(** ** Start-up configuration *)

(** X1. Start-up passes the key check with key [k] exactly when [k] is not
    empty and is either the value the secret store returned, or the value of
    the environment variable after the secret lookup raised. *)
Theorem api_key_resolution (secret : result string) (env : option string)
    (k : string) :
  resolve_api_key secret env = Started k
  <-> k <> EmptyString
      /\ (secret = Ok k \/ ((exists e, secret = Raise e) /\ env = Some k)).
Proof.
  assert (Hkey : forall k' : string,
            (if String.eqb k' EmptyString then RuntimeError missing_key_message
             else Started k') = Started k
            <-> k <> EmptyString /\ k' = k).
  { intros k'. destruct (String.eqb_spec k' EmptyString) as [Heq | Hne].
    - split; [discriminate | intros [Hk Hkk]; congruence].
    - split; [intros [= Hkk]; subst k'; auto | intros [_ Hkk]; congruence]. }
  unfold resolve_api_key.
  destruct secret as [k' | e].
  - rewrite Hkey. split.
    + intros [Hk Hkk]. subst k'. auto.
    + intros [Hk [[= Hkk] | [[e He] _]]]; [auto | discriminate].
  - destruct env as [k' |].
    + rewrite Hkey. split.
      * intros [Hk Hkk]. subst k'. split; [exact Hk |]. right.
        split; [eexists; reflexivity | reflexivity].
      * intros [Hk [Hs | [_ [= Hkk]]]]; [discriminate | auto].
    + split; [discriminate |].
      intros [_ [Hs | [_ He]]]; discriminate.
Qed.

(** ** The document *)

Lemma split_on_not_nil (sep : ascii) (text : string) : split_on sep text <> nil.
Proof.
  destruct text as [| c rest]; cbn; [discriminate |].
  destruct (Ascii.eqb c sep); [discriminate |].
  destruct (split_on sep rest); discriminate.
Qed.

Lemma join_with_cons (sep p : string) (q : string) (ps : list string) :
  join_with sep (p :: q :: ps) = p ++ sep ++ join_with sep (q :: ps).
Proof. reflexivity. Qed.

Lemma join_split_on (sep : ascii) (text : string) :
  join_with (String sep EmptyString) (split_on sep text) = text.
Proof.
  induction text as [| c rest IH]; [reflexivity |].
  cbn [split_on].
  destruct (Ascii.eqb_spec c sep) as [-> | Hne].
  - pose proof (split_on_not_nil sep rest) as Hnn.
    destruct (split_on sep rest) as [| l ls]; [contradiction |].
    rewrite join_with_cons, IH. reflexivity.
  - pose proof (split_on_not_nil sep rest) as Hnn.
    destruct (split_on sep rest) as [| l ls]; [contradiction |].
    destruct ls as [| l' ls'].
    + cbn in IH |- *. rewrite IH. reflexivity.
    + rewrite join_with_cons in IH |- *.
      change (String c l ++ String sep EmptyString ++ join_with (String sep EmptyString) (l' :: ls'))
        with (String c (l ++ String sep EmptyString ++ join_with (String sep EmptyString) (l' :: ls'))).
      rewrite IH. reflexivity.
Qed.

Lemma length_split_on (sep : ascii) (text : string) :
  length (split_on sep text) = S (count_char sep text).
Proof.
  induction text as [| c rest IH]; [reflexivity |].
  cbn [split_on count_char].
  destruct (Ascii.eqb c sep).
  - cbn. rewrite IH. reflexivity.
  - pose proof (split_on_not_nil sep rest) as Hnn.
    destruct (split_on sep rest) as [| l ls]; [contradiction |].
    cbn in IH |- *. exact IH.
Qed.

Lemma split_on_no_sep (sep : ascii) (text : string) :
  Forall (fun line => count_char sep line = O) (split_on sep text).
Proof.
  induction text as [| c rest IH]; [repeat constructor |].
  cbn [split_on].
  destruct (Ascii.eqb c sep) eqn:Hc.
  - constructor; [reflexivity | exact IH].
  - pose proof (split_on_not_nil sep rest) as Hnn.
    destruct (split_on sep rest) as [| l ls]; [contradiction |].
    inversion_clear IH as [| ? ? Hl Hls].
    constructor; [| exact Hls]. cbn. rewrite Hc, Hl. reflexivity.
Qed.

(** X2. [create_pdf_from_text] hands the renderer the title and the lines of
    the text unchanged and in order: joined by newlines they are the text
    again, there is one line more than the text has newlines, and no line
    contains a newline. *)
Theorem pdf_lines_are_the_text
    (render_page : string -> list string -> result (list Byte.byte))
    (text title : string) :
  exists lines : list string,
    create_pdf_from_text render_page text title = render_page title lines
    /\ join_with (String newline EmptyString) lines = text
    /\ length lines = S (count_char newline text)
    /\ Forall (fun line => count_char newline line = O) lines.
Proof.
  exists (split_on newline text). unfold create_pdf_from_text.
  split; [reflexivity |].
  split; [apply join_split_on |].
  split; [apply length_split_on | apply split_on_no_sep].
Qed.

(** ** The plan request and the submit handler *)

(** X3. [generate_meal_plan_with_ai] asks the client once, with the fixed
    model name and the system message followed by the user message that
    carries the prompt.  It returns the content of the first choice, raises
    [IndexError] when the response has no choice, and lets an exception of
    the client through unchanged. *)
Theorem plan_request_outcomes {F : Type} `{PyNum F}
    (chat_completions_create : string -> list (string * string) -> result (list string))
    (macros : MacroResult F) (inp : form_inputs F) :
  let request :=
    generate_meal_plan_with_ai chat_completions_create macros (in_allergies inp)
      (in_dislikes inp) (in_preferred_store inp) (in_weekly_budget inp)
      (in_language inp) in
  let response := chat_completions_create MODEL_NAME (plan_messages macros inp) in
  (forall content rest, response = Ok (content :: rest) -> request = Ok content)
  /\ (response = Ok nil -> request = Raise IndexError)
  /\ (forall e, response = Raise e -> request = Raise e).
Proof.
  cbv zeta. unfold generate_meal_plan_with_ai, plan_messages.
  split; [| split].
  - intros content rest Hr. rewrite Hr. reflexivity.
  - intros Hr. rewrite Hr. reflexivity.
  - intros e Hr. rewrite Hr. reflexivity.
Qed.



(** X5. When the plan arrives but the renderer raises [e], the plan is already
    in the text area; the handler then reports [e] under the same
    "Error generating meal plan" message and offers no download. *)
Theorem render_failure_keeps_plan {F : Type} `{PyNum F}
    (chat_completions_create : string -> list (string * string) -> result (list string))
    (render_page : string -> list string -> result (list Byte.byte))
    (inp : form_inputs F) (macros : MacroResult F)
    (plan_text : string) (rest : list string) (e : pyexc) :
  calculate_macros (in_sex inp) (in_age inp) (in_height_cm inp)
    (in_weight_current_kg inp) (in_weight_goal_kg inp) (in_weight_source inp)
    (in_activity_factor inp) (in_intensity inp) (in_protein_g_per_kg inp)
    (in_fat_g_per_kg inp) = Ok macros ->
  chat_completions_create MODEL_NAME (plan_messages macros inp)
  = Ok (plan_text :: rest) ->
  render_page (pdf_title (in_language inp)) (split_on newline plan_text)
  = Raise e ->
  main_submitted chat_completions_create render_page inp
  = Ok (show_macros macros
        ++ st_text_area "Meal plan" plan_text
           :: st_error ("Error generating meal plan: " ++ exc_str e)
           :: nil)%list.
Proof.
  intros Hm Hc Hr. unfold main_submitted. rewrite Hm. cbn [bind].
  unfold show_plan, generate_meal_plan_with_ai, create_pdf_from_text.
  unfold plan_messages in Hc. rewrite Hc. cbn [bind].
  unfold pdf_title in Hr. rewrite Hr. reflexivity.
Qed.

Lemma render_failure_keeps_plan_witness :
  calculate_macros (in_sex example_inputs) (in_age example_inputs)
    (in_height_cm example_inputs) (in_weight_current_kg example_inputs)
    (in_weight_goal_kg example_inputs) (in_weight_source example_inputs)
    (in_activity_factor example_inputs) (in_intensity example_inputs)
    (in_protein_g_per_kg example_inputs) (in_fat_g_per_kg example_inputs)
  = Ok example_macros
  /\ canned_client MODEL_NAME (plan_messages example_macros example_inputs)
     = Ok (example_plan :: nil)
  /\ failing_renderer (pdf_title (in_language example_inputs))
       (split_on newline example_plan)
     = Raise (ExternalError "cannot draw")
  /\ main_submitted canned_client failing_renderer example_inputs
     = Ok (show_macros example_macros
           ++ st_text_area "Meal plan" example_plan
              :: st_error ("Error generating meal plan: "
                           ++ exc_str (ExternalError "cannot draw"))
              :: nil)%list.
Proof.
  split; [vm_compute; reflexivity |].
  split; [reflexivity |]. split; [reflexivity |].
  apply (render_failure_keeps_plan canned_client failing_renderer
           example_inputs example_macros example_plan nil
           (ExternalError "cannot draw")).
  - vm_compute; reflexivity.
  - reflexivity.
  - reflexivity.
Defined.

(** X6. The [KeyError] of an intensity outside the three of the select box is
    raised before the [try] block: the handler ends with it and shows
    nothing, whatever the client and the renderer would do. *)
Theorem bad_intensity_ends_run {F : Type} `{PyNumLaws F}
    (chat_completions_create : string -> list (string * string) -> result (list string))
    (render_page : string -> list string -> result (list Byte.byte))
    (inp : form_inputs F) :
  int_fits (F:=F) (5 * in_age inp) = true ->
  ~ intensity_enum (in_intensity inp) ->
  main_submitted chat_completions_create render_page inp
  = Raise (KeyError (in_intensity inp)).
Proof.
  intros Hfit Hn. unfold main_submitted, calculate_macros, promote.
  rewrite Hfit, (dict_getitem_not_enum _ Hn).
  destruct (String.eqb (upper (in_sex inp)) "M"); reflexivity.
Qed.

Lemma bad_intensity_ends_run_witness :
  int_fits (F:=spec_float) (5 * in_age example_inputs_extreme) = true
  /\ ~ intensity_enum (in_intensity example_inputs_extreme)
  /\ main_submitted canned_client blank_renderer example_inputs_extreme
     = Raise (KeyError "Extreme").
Proof.
  assert (Hn : ~ intensity_enum (in_intensity example_inputs_extreme))
    by (intros [H | [H | H]]; discriminate H).
  split; [vm_compute; reflexivity |]. split; [exact Hn |].
  apply (bad_intensity_ends_run canned_client blank_renderer
           example_inputs_extreme).
  - vm_compute; reflexivity.
  - exact Hn.
Defined.

(** ** The calculator at the edges of its domain *)

(** X7. [sex] has two outcomes only: ["M"] and ["m"] give the whole result of
    ["M"], every other string the whole result of ["F"]. *)
Theorem sex_has_two_outcomes {F : Type} `{PyNum F}
    (sex : string) (age : Z) (height_cm weight_current_kg weight_goal_kg : F)
    (weight_source : string) (activity_factor : F) (intensity : string)
    (protein_g_per_kg fat_g_per_kg : F) :
  let run (s : string) :=
    calculate_macros s age height_cm weight_current_kg weight_goal_kg
      weight_source activity_factor intensity protein_g_per_kg fat_g_per_kg in
  (sex = "M" \/ sex = "m" -> run sex = run "M")
  /\ (sex <> "M" -> sex <> "m" -> run sex = run "F").
Proof.
  cbv zeta. unfold calculate_macros.
  destruct (String.eqb (upper sex) "M") eqn:Hu.
  - split; [reflexivity |].
    apply upper_eqb_M in Hu. intros HM Hm. destruct Hu; contradiction.
  - split; [| reflexivity].
    intros Hs. apply upper_eqb_M in Hs. congruence.
Qed.

(** X8. Every [weight_source] other than ["Current"] gives the result of
    ["Goal"]. *)
Theorem weight_source_defaults_to_goal {F : Type} `{PyNum F}
    (sex : string) (age : Z) (height_cm weight_current_kg weight_goal_kg : F)
    (weight_source : string) (activity_factor : F) (intensity : string)
    (protein_g_per_kg fat_g_per_kg : F) :
  weight_source <> "Current" ->
  calculate_macros sex age height_cm weight_current_kg weight_goal_kg
    weight_source activity_factor intensity protein_g_per_kg fat_g_per_kg
  = calculate_macros sex age height_cm weight_current_kg weight_goal_kg
      "Goal" activity_factor intensity protein_g_per_kg fat_g_per_kg.
Proof.
  intros Hne. unfold calculate_macros.
  destruct (String.eqb_spec weight_source "Current"); [contradiction |].
  reflexivity.
Qed.

Lemma weight_source_defaults_to_goal_witness :
  "goal weight" <> "Current"
  /\ calculate_macros "F" 30 (of_int 170) (of_int 70) (of_int 65)
       "goal weight" (of_decimal 1.375) "Moderate" (of_decimal 1.4)
       (of_decimal 0.7 : spec_float)
     = calculate_macros "F" 30 (of_int 170) (of_int 70) (of_int 65)
         "Goal" (of_decimal 1.375) "Moderate" (of_decimal 1.4)
         (of_decimal 0.7 : spec_float).
Proof.
  split; [discriminate |].
  apply (weight_source_defaults_to_goal "F" 30 (of_int 170) (of_int 70)
           (of_int 65) "goal weight" (of_decimal 1.375) "Moderate"
           (of_decimal 1.4) (of_decimal 0.7 : spec_float)).
  discriminate.
Defined.

(** X9. An age whose fivefold does not convert to a float ends
    [calculate_macros] with [OverflowError], before the intensity is looked
    up. *)
Theorem huge_age_overflows {F : Type} `{PyNum F}
    (sex : string) (age : Z) (height_cm weight_current_kg weight_goal_kg : F)
    (weight_source : string) (activity_factor : F) (intensity : string)
    (protein_g_per_kg fat_g_per_kg : F) :
  int_fits (F:=F) (5 * age) = false ->
  calculate_macros sex age height_cm weight_current_kg weight_goal_kg
    weight_source activity_factor intensity protein_g_per_kg fat_g_per_kg
  = Raise OverflowError.
Proof.
  intros Hfit. unfold calculate_macros, promote. rewrite Hfit.
  destruct (String.eqb (upper sex) "M"); reflexivity.
Qed.

Lemma huge_age_overflows_witness :
  int_fits (F:=spec_float) (5 * 2 ^ 1024) = false
  /\ calculate_macros "M" (2 ^ 1024) (of_int 170) (of_int 70) (of_int 65)
       "Current" (of_decimal 1.375) "no such intensity" (of_decimal 1.4)
       (of_decimal 0.7 : spec_float)
     = Raise OverflowError.
Proof.
  split; [vm_compute; reflexivity |].
  apply (huge_age_overflows "M" (2 ^ 1024) (of_int 170) (of_int 70) (of_int 65)
           "Current" (of_decimal 1.375) "no such intensity" (of_decimal 1.4)
           (of_decimal 0.7 : spec_float)).
  vm_compute; reflexivity.
Defined.





Section ExactOrder.
Local Open Scope Q_scope.




End ExactOrder.


(** NaN absorbs a multiplication from the right as from the left. *)
Lemma SFmul_nan_r (x : spec_float) : SFmul prec emax x S754_nan = S754_nan.
Proof. destruct x; reflexivity. Qed.

(** X13. [calculate_macros] does not reject a NaN: with a NaN current weight
    [rmr], [tdee] and [target_kcal] are NaN, so [1200 <= target_kcal] is
    false, while [carbs_g] and the three percentages are 0. *)
Theorem nan_weight_bypasses_floor
    (sex : string) (age : Z) (height_cm weight_goal_kg : spec_float)
    (weight_source : string) (activity_factor : spec_float) (intensity : string)
    (protein_g_per_kg fat_g_per_kg : spec_float) :
  int_fits (F:=spec_float) (5 * age) = true ->
  intensity_enum intensity ->
  exists r : MacroResult spec_float,
    calculate_macros sex age height_cm S754_nan weight_goal_kg weight_source
      activity_factor intensity protein_g_per_kg fat_g_per_kg = Ok r
    /\ rmr r = S754_nan /\ tdee r = S754_nan /\ target_kcal r = S754_nan
    /\ SFleb (of_int 1200) (target_kcal r) = false
    /\ carbs_g r = of_int 0
    /\ protein_pct r = of_int 0 /\ fat_pct r = of_int 0
    /\ carbs_pct r = of_int 0.
Proof.
  intros Hfit Hi.
  destruct (dict_getitem_enum intensity Hi) as (d & Hd & _).
  destruct (calculate_macros_spec sex age height_cm S754_nan weight_goal_kg
              weight_source activity_factor intensity protein_g_per_kg
              fat_g_per_kg d Hfit Hd)
    as (r & Hr & Hrmr & Htdee & Htgt & _ & _ & Hcg & Hpct).
  exists r. split; [exact Hr |].
  assert (Hrmr' : rmr r = S754_nan).
  { rewrite Hrmr. cbn [pyadd pysub pymul binary64].
    rewrite SFmul_nan_r.
    destruct (String.eqb (upper sex) "M"); reflexivity. }
  assert (Htdee' : tdee r = S754_nan).
  { rewrite Htdee, Hrmr'. reflexivity. }
  assert (Htgt' : target_kcal r = S754_nan).
  { rewrite Htgt, Htdee'. reflexivity. }
  rewrite Htgt' in Hcg, Hpct.
  change (carbs_g r = of_int 0) in Hcg.
  change (Ok (of_int 0, of_int 0, of_int 0)
          = Ok (protein_pct r, fat_pct r, carbs_pct r)) in Hpct.
  injection Hpct as Hp Hf Hc.
  split; [exact Hrmr' |]. split; [exact Htdee' |]. split; [exact Htgt' |].
  split; [rewrite Htgt'; reflexivity |]. split; [exact Hcg |].
  repeat split; symmetry; assumption.
Qed.

Lemma nan_weight_bypasses_floor_witness :
  int_fits (F:=spec_float) (5 * 30) = true
  /\ intensity_enum "Moderate"
  /\ exists r : MacroResult spec_float,
       calculate_macros "M" 30 (of_int 170) S754_nan (of_int 65) "Goal"
         (of_decimal 1.375) "Moderate" (of_decimal 1.4) (of_decimal 0.7) = Ok r
       /\ rmr r = S754_nan /\ tdee r = S754_nan /\ target_kcal r = S754_nan
       /\ SFleb (of_int 1200) (target_kcal r) = false
       /\ carbs_g r = of_int 0
       /\ protein_pct r = of_int 0 /\ fat_pct r = of_int 0
       /\ carbs_pct r = of_int 0.
Proof.
  split; [reflexivity |]. split; [right; left; reflexivity |].
  apply (nan_weight_bypasses_floor "M" 30 (of_int 170) (of_int 65) "Goal"
           (of_decimal 1.375) "Moderate" (of_decimal 1.4) (of_decimal 0.7)).
  - reflexivity.
  - right; left; reflexivity.
Defined.

(** X14. For doubles in the ranges of the form and any of the three
    intensities, [rmr] and [tdee] are not NaN, [protein_g] and [fat_g] are
    not negative, and [rmr], [tdee], [target_kcal], [protein_g] and [fat_g]
    are canonical doubles. *)
Theorem outputs_are_numbers
    (sex : string) (age : Z)
    (height_cm weight_current_kg weight_goal_kg : spec_float)
    (weight_source : string) (activity_factor : spec_float) (intensity : string)
    (protein_g_per_kg fat_g_per_kg : spec_float) :
  valid_inputs_f64 age height_cm weight_current_kg weight_goal_kg
    activity_factor protein_g_per_kg fat_g_per_kg = true ->
  intensity_enum intensity ->
  exists r : MacroResult spec_float,
    calculate_macros sex age height_cm weight_current_kg weight_goal_kg
      weight_source activity_factor intensity protein_g_per_kg fat_g_per_kg
    = Ok r
    /\ f64_not_nan (rmr r) = true /\ f64_not_nan (tdee r) = true
    /\ SFleb (of_int 0) (protein_g r) = true
    /\ SFleb (of_int 0) (fat_g r) = true
    /\ Forall (fun x => valid_binary prec emax x = true)
         (rmr r :: tdee r :: target_kcal r :: protein_g r :: fat_g r :: nil).
Proof.
  intros Hv Hi.
  destruct (valid_inputs_f64_facts _ _ _ _ _ _ _ Hv) as [Hage Hall].
  inversion_clear Hall as [| ? ? [Hh Hhv] Hall1].
  inversion_clear Hall1 as [| ? ? [Hw Hwv] Hall2].
  inversion_clear Hall2 as [| ? ? [Hg Hgv] Hall3].
  inversion_clear Hall3 as [| ? ? [Haf Hafv] Hall4].
  inversion_clear Hall4 as [| ? ? [Hp Hpv] Hall5].
  inversion_clear Hall5 as [| ? ? [Hf Hfv] _].
  destruct (dict_getitem_enum intensity Hi) as (d & Hd & Hdv).
  assert (Hfit : int_fits (F:=spec_float) (5 * age) = true)
    by exact (age_fits age Hage).
  destruct (calculate_macros_spec sex age height_cm weight_current_kg
              weight_goal_kg weight_source activity_factor intensity
              protein_g_per_kg fat_g_per_kg d Hfit Hd)
    as (r & Hr & Hrmr & Htdee & Htgt & Hpg & Hfg & _).
  exists r. split; [exact Hr |].
  assert (Hfin : f64_finite (of_int (5 * age)) = true)
    by (apply f64_of_Z_finite, age_fits, Hage).
  assert (Hrn : f64_not_nan (rmr r) = true).
  { rewrite Hrmr.
    pose proof (rmr_not_nan weight_current_kg height_cm (of_int (5 * age))) as Hn.
    destruct (String.eqb (upper sex) "M").
    - apply (Hn (of_int 5) true); auto.
    - apply (Hn (of_int 161) false); auto. }
  assert (Hrv : valid_binary prec emax (rmr r) = true).
  { rewrite Hrmr.
    assert (Hbase : valid_binary prec emax
                      (of_int 10 * weight_current_kg + of_decimal 6.25 * height_cm
                       - of_int (5 * age))%py = true).
    { apply SFsub_valid; [| apply f64_of_Z_valid].
      apply SFadd_valid; apply SFmul_valid; auto; reflexivity. }
    destruct (String.eqb (upper sex) "M").
    - apply SFadd_valid; [exact Hbase | reflexivity].
    - apply SFsub_valid; [exact Hbase | reflexivity]. }
  assert (Htv : valid_binary prec emax (tdee r) = true)
    by (rewrite Htdee; apply SFmul_valid; assumption).
  set (wfm := if String.eqb weight_source "Current"
              then weight_current_kg else weight_goal_kg) in *.
  assert (Hwfm : f64_pos_finite wfm = true /\ valid_binary prec emax wfm = true)
    by (unfold wfm; destruct (String.eqb weight_source "Current"); auto).
  destruct Hwfm as [Hm Hmv].
  split; [exact Hrn |].
  split; [rewrite Htdee; apply SFmul_not_nan_pos_finite; assumption |].
  split; [rewrite Hpg; apply f64_signed_ge_zero, SFmul_pos_finite; assumption |].
  split; [rewrite Hfg; apply f64_signed_ge_zero, SFmul_pos_finite; assumption |].
  repeat constructor; try assumption.
  - rewrite Htgt. apply pymax_valid; [| reflexivity].
    apply SFsub_valid; [exact Htv | apply f64_of_Z_valid].
  - rewrite Hpg. apply SFmul_valid; assumption.
  - rewrite Hfg. apply SFmul_valid; assumption.
Qed.

Lemma outputs_are_numbers_witness :
  valid_inputs_f64 30 (of_int 170) (of_int 70) (of_int 65) (of_decimal 1.375)
    (of_decimal 1.4) (of_decimal 0.7) = true
  /\ intensity_enum "Moderate"
  /\ exists r : MacroResult spec_float,
       calculate_macros "M" 30 (of_int 170) (of_int 70) (of_int 65) "Current"
         (of_decimal 1.375) "Moderate" (of_decimal 1.4) (of_decimal 0.7)
       = Ok r
       /\ f64_not_nan (rmr r) = true /\ f64_not_nan (tdee r) = true
       /\ SFleb (of_int 0) (protein_g r) = true
       /\ SFleb (of_int 0) (fat_g r) = true
       /\ Forall (fun x => valid_binary prec emax x = true)
            (rmr r :: tdee r :: target_kcal r :: protein_g r :: fat_g r :: nil).
Proof.
  split; [vm_compute; reflexivity |].
  split; [right; left; reflexivity |].
  apply (outputs_are_numbers "M" 30 (of_int 170) (of_int 70) (of_int 65)
           "Current" (of_decimal 1.375) "Moderate" (of_decimal 1.4)
           (of_decimal 0.7)).
  - vm_compute; reflexivity.
  - right; left; reflexivity.
Defined.

(** ** The prompt *)


(** X16. The prompt reads the macros only through [target_kcal],
    [protein_g], [carbs_g] and [fat_g] printed without decimals: two results
    that agree on these four printed numbers give the same prompt. *)
Theorem prompt_reads_rounded_macros {F : Type} `{PyNum F}
    (m1 m2 : MacroResult F) (allergies dislikes preferred_store : string)
    (weekly_budget : F) (language : string) :
  fmt_fixed 0 (target_kcal m1) = fmt_fixed 0 (target_kcal m2) ->
  fmt_fixed 0 (protein_g m1) = fmt_fixed 0 (protein_g m2) ->
  fmt_fixed 0 (carbs_g m1) = fmt_fixed 0 (carbs_g m2) ->
  fmt_fixed 0 (fat_g m1) = fmt_fixed 0 (fat_g m2) ->
  build_mealplan_prompt m1 allergies dislikes preferred_store weekly_budget
    language
  = build_mealplan_prompt m2 allergies dislikes preferred_store weekly_budget
      language.
Proof.
  intros Ht Hp Hc Hf. unfold build_mealplan_prompt.
  rewrite Ht, Hp, Hc, Hf. reflexivity.
Qed.

Lemma prompt_reads_rounded_macros_witness :
  fmt_fixed 0 (target_kcal example_macros)
  = fmt_fixed 0 (target_kcal example_macros_nearby)
  /\ fmt_fixed 0 (protein_g example_macros)
     = fmt_fixed 0 (protein_g example_macros_nearby)
  /\ fmt_fixed 0 (carbs_g example_macros)
     = fmt_fixed 0 (carbs_g example_macros_nearby)
  /\ fmt_fixed 0 (fat_g example_macros)
     = fmt_fixed 0 (fat_g example_macros_nearby)
  /\ build_mealplan_prompt example_macros "peanuts" EmptyString "H-E-B"
       (of_int 120) "Spanish"
     = build_mealplan_prompt example_macros_nearby "peanuts" EmptyString
         "H-E-B" (of_int 120) "Spanish".
Proof.
  split; [vm_compute; reflexivity |]. split; [vm_compute; reflexivity |].
  split; [vm_compute; reflexivity |]. split; [vm_compute; reflexivity |].
  apply (prompt_reads_rounded_macros example_macros example_macros_nearby
           "peanuts" EmptyString "H-E-B" (of_int 120) "Spanish");
    vm_compute; reflexivity.
Defined.

Lemma round_half_even_nearest (n : Z) (d : positive) :
  0 <= n ->
  0 <= round_half_even n d
  /\ 2 * Z.abs (round_half_even n d * Z.pos d - n) <= Z.pos d.
Proof.
  intros Hn. unfold round_half_even.
  pose proof (Z.div_mod n (Z.pos d) ltac:(lia)) as Hdm.
  pose proof (Z.mod_pos_bound n (Z.pos d) ltac:(lia)) as Hr.
  pose proof (Z.div_pos n (Z.pos d) Hn ltac:(lia)) as Hq.
  set (q := n / Z.pos d) in *. set (r := n mod Z.pos d) in *.
  destruct (Z.compare_spec (2 * r) (Z.pos d)) as [He | Hl | Hg];
    try destruct (Z.even q); split; nia.
Qed.

(** Whole-number display: [format(q, '.0f')] of a non-negative value prints
    an integer nearest to it. *)
Lemma fmt_fixed_Q_0_nearest (q : Q) :
  (0 <= q)%Q ->
  exists n : Z,
    fmt_fixed_Q 0 q = dec_string n
    /\ 0 <= n
    /\ (inject_Z n - (1 # 2) <= q <= inject_Z n + (1 # 2))%Q.
Proof.
  intros Hq. destruct q as [a d].
  assert (Ha : 0 <= a) by (unfold Qle in Hq; cbn in Hq; lia).
  destruct (round_half_even_nearest a d Ha) as [Hn0 Hn].
  exists (round_half_even a d).
  split.
  - unfold fmt_fixed_Q. cbn [Qnum Qden Z.of_nat].
    replace (a <? 0) with false by (symmetry; apply Z.ltb_ge; exact Ha).
    rewrite Z.pow_0_r, Z.abs_eq, Z.mul_1_r, Z.div_1_r by exact Ha.
    cbn [append]. apply append_empty_r.
  - split; [exact Hn0 |].
    unfold Qle, Qminus, Qplus, Qopp, inject_Z. cbn [Qnum Qden].
    set (n := round_half_even a d) in *. lia.
Qed.

Lemma fmt_fixed_f64_0_nearest (x : spec_float) :
  f64_nonneg_finite x = true ->
  exists n : Z,
    fmt_fixed_f64 0 x = dec_string n
    /\ (inject_Z n - (1 # 2) <= f64_to_Q x <= inject_Z n + (1 # 2))%Q.
Proof.
  destruct x as [[] | | | [] m e]; try discriminate; intros _.
  - exists 0. split; [reflexivity |]. split; unfold Qle; cbn; lia.
  - assert (Hq : (0 <= f64_to_Q (S754_finite false m e))%Q).
    { cbn [f64_to_Q]. destruct e as [| p | p]; unfold Qle; cbn; lia. }
    destruct (fmt_fixed_Q_0_nearest _ Hq) as (n & En & _ & Bn).
    exists n. split; [exact En | exact Bn].
Qed.

(** X17. For finite doubles with the sign bit clear, the prompt shows
    calories, protein, carbohydrates and fats each as an integer within one
    half of the value, after its label and before its unit. *)
Theorem prompt_shows_nearest_whole_numbers
    (macros : MacroResult spec_float)
    (allergies dislikes preferred_store : string)
    (weekly_budget : spec_float) (language : string) :
  f64_nonneg_finite (target_kcal macros) = true ->
  f64_nonneg_finite (protein_g macros) = true ->
  f64_nonneg_finite (carbs_g macros) = true ->
  f64_nonneg_finite (fat_g macros) = true ->
  let prompt := build_mealplan_prompt macros allergies dislikes preferred_store
                  weekly_budget language in
  shows_nearest "- Daily calories: " " kcal" (f64_to_Q (target_kcal macros)) prompt
  /\ shows_nearest "- Protein: " " g/day" (f64_to_Q (protein_g macros)) prompt
  /\ shows_nearest "- Carbohydrates: " " g/day" (f64_to_Q (carbs_g macros)) prompt
  /\ shows_nearest "- Fats: " " g/day" (f64_to_Q (fat_g macros)) prompt.
Proof.
  intros Ht Hp Hc Hf prompt.
  destruct (fmt_fixed_f64_0_nearest _ Ht) as (nt & Et & Bt).
  destruct (fmt_fixed_f64_0_nearest _ Hp) as (np & Ep & Bp).
  destruct (fmt_fixed_f64_0_nearest _ Hc) as (nc & Ec & Bc).
  destruct (fmt_fixed_f64_0_nearest _ Hf) as (nf & Ef & Bf).
  unfold prompt, build_mealplan_prompt. cbn [fmt_fixed binary64].
  rewrite Et, Ep, Ec, Ef.
  set (tail := prompt_constraints allergies dislikes preferred_store weekly_budget
               ++ prompt_tail).
  set (L := lang_note language).
  set (Dt := dec_string nt). set (Dp := dec_string np).
  set (Dc := dec_string nc). set (Df := dec_string nf).
  split; [| split; [| split]].
  - exists nt. split; [| exact Bt]. fold Dt.
    exists (String newline L
            ++ substring 0 (String.length prompt_role - 18) prompt_role),
           ("
- Protein: " ++ Dp ++ " g/day
- Carbohydrates: " ++ Dc ++ " g/day
- Fats: " ++ Df ++ " g/day

" ++ tail).
    rewrite !append_assoc. reflexivity.
  - exists np. split; [| exact Bp]. fold Dp.
    exists (String newline L ++ prompt_role ++ Dt ++ " kcal
"),
           ("
- Carbohydrates: " ++ Dc ++ " g/day
- Fats: " ++ Df ++ " g/day

" ++ tail).
    rewrite !append_assoc. reflexivity.
  - exists nc. split; [| exact Bc]. fold Dc.
    exists (String newline L ++ prompt_role ++ Dt ++ " kcal
- Protein: " ++ Dp ++ " g/day
"),
           ("
- Fats: " ++ Df ++ " g/day

" ++ tail).
    rewrite !append_assoc. reflexivity.
  - exists nf. split; [| exact Bf]. fold Df.
    exists (String newline L ++ prompt_role ++ Dt ++ " kcal
- Protein: " ++ Dp ++ " g/day
- Carbohydrates: " ++ Dc ++ " g/day
"),
           ("

" ++ tail).
    rewrite !append_assoc. reflexivity.
Qed.

Lemma prompt_shows_nearest_whole_numbers_witness :
  f64_nonneg_finite (target_kcal example_macros) = true
  /\ f64_nonneg_finite (protein_g example_macros) = true
  /\ f64_nonneg_finite (carbs_g example_macros) = true
  /\ f64_nonneg_finite (fat_g example_macros) = true
  /\ shows_nearest "- Daily calories: " " kcal"
       (f64_to_Q (target_kcal example_macros))
       (build_mealplan_prompt example_macros EmptyString EmptyString
          EmptyString (of_int 120) "English")
  /\ shows_nearest "- Protein: " " g/day" (f64_to_Q (protein_g example_macros))
       (build_mealplan_prompt example_macros EmptyString EmptyString
          EmptyString (of_int 120) "English")
  /\ shows_nearest "- Carbohydrates: " " g/day"
       (f64_to_Q (carbs_g example_macros))
       (build_mealplan_prompt example_macros EmptyString EmptyString
          EmptyString (of_int 120) "English")
  /\ shows_nearest "- Fats: " " g/day" (f64_to_Q (fat_g example_macros))
       (build_mealplan_prompt example_macros EmptyString EmptyString
          EmptyString (of_int 120) "English").
Proof.
  split; [reflexivity |]. split; [reflexivity |].
  split; [reflexivity |]. split; [reflexivity |].
  apply (prompt_shows_nearest_whole_numbers example_macros EmptyString
           EmptyString EmptyString (of_int 120) "English"); reflexivity.
Defined.
